(** * FlexBook: booking lifecycle and concession ledger

    A shallow embedding of the booking engine of the FlexBook gym-class
    booking application, in its two implementations:

    - the server route handlers ([backend/src/routes/bookings.js],
      [backend/src/routes/users.js], with the middleware of
      [backend/src/middleware/auth.js] and the constraints of
      [backend/src/db/schema.sql]), in [Module Server];
    - the browser-local store of [services/mockApi.ts], in [Module Mock].

    Conventions of the embedding.

    - Instants ([Date#getTime]) are integers, in milliseconds since the epoch.
    - A calendar date (a [DATE] column, an ISO [YYYY-MM-DD] string) is the
      number of its day since the epoch; ISO date strings compare as the day
      numbers do, and [new Date("YYYY-MM-DD")] is midnight UTC of that day.
    - A class time ([HH:MM]) is the number of minutes since midnight; the
      zone in which [new Date(`${date}T${time}:00`)] is read is taken as UTC.
    - The tables [users] and [classes] are finite maps keyed by their primary
      key; [bookings] is the list of rows, in insertion order.
    - The form in which the database driver hands [DATE] and [TIME] columns
      to a handler is not modelled: the handlers are read as comparing and
      combining the dates and times themselves.
    - The two quotients the code takes in floating point (of a difference
      of instants by the milliseconds of a day, rounded up, and by those of
      an hour, compared with 0 and 24) are taken exactly; for instants
      within three thousand years of each other the rounding changes
      neither the ceiling nor the comparisons.
    - Requests are handled one at a time: a handler runs from its first query
      to its last without another request in between.
    - Rows that tie in an [ORDER BY] are taken in table order.
    - Of the notes table only the user a note belongs to is read.

    The listings and user views of the server, its class routes
    ([backend/src/routes/classes.js]), the mock's sessions and class
    deletion, and the callers in [contexts/BookingContext.tsx],
    [components/BookingPage.tsx] and [components/UserManagement.tsx] follow
    the two booking engines. *)

From Stdlib Require Import ZArith QArith Lia List Bool String Sorted Permutation.
From stdpp Require Import base option list gmap.

Local Open Scope Z_scope.

(** ** Time *)

Module Time.

Definition msPerDay : Z := 1000 * 60 * 60 * 24.

(** [Math.ceil (a / b)] for a positive divisor. *)
Definition ceil_div (a b : Z) : Z := - ((- a) / b).

(** [new Date("YYYY-MM-DD").getTime()]. *)
Definition midnight (date : Z) : Z := date * msPerDay.

(** [new Date(now).toISOString().split('T')[0]]. *)
Definition isoDate (now : Z) : Z := now / msPerDay.

(** [new Date(`${date}T${time}:00`).getTime()]. *)
Definition combine (date time : Z) : Z := midnight date + time * 60 * 1000.

End Time.

(** ** Data model *)

Inductive Role := role_user | role_admin.

#[global] Instance Role_eq_dec : EqDecision Role.
Proof. solve_decision. Defined.

Module User.
Record t := mk
  { role : Role;
    concessions : Z;
    is_active : bool }.

Definition set_concessions (n : Z) (u : t) : t :=
  {| role := role u; concessions := n; is_active := is_active u |}.
End User.

Module GymClass.
Inductive Status := published | draft | scheduled | archived.

Record t := mk
  { time : Z;
    max_capacity : Z;
    status : Status;
    publish_date : option Z;
    end_date : option Z }.
End GymClass.

#[global] Instance GymClass_Status_eq_dec : EqDecision GymClass.Status.
Proof. solve_decision. Defined.

Module Booking.
Inductive Status := confirmed | cancelled | completed | late_cancelled.

Record t := mk
  { id : Z;
    user_id : Z;
    class_id : Z;
    booking_date : Z;
    status : Status;
    used_concession : bool;
    booking_time : Z;
    cancellation_time : option Z;
    is_late_cancellation : bool }.

Definition set_status (s : Status) (b : t) : t :=
  {| id := id b; user_id := user_id b; class_id := class_id b;
     booking_date := booking_date b; status := s;
     used_concession := used_concession b; booking_time := booking_time b;
     cancellation_time := cancellation_time b;
     is_late_cancellation := is_late_cancellation b |}.

(** The three columns a cancellation writes. *)
Definition set_cancelled (s : Status) (now : Z) (late : bool) (b : t) : t :=
  {| id := id b; user_id := user_id b; class_id := class_id b;
     booking_date := booking_date b; status := s;
     used_concession := used_concession b; booking_time := booking_time b;
     cancellation_time := Some now;
     is_late_cancellation := late |}.
End Booking.

#[global] Instance Booking_Status_eq_dec : EqDecision Booking.Status.
Proof. solve_decision. Defined.

#[global] Instance Booking_eq_dec : EqDecision Booking.t.
Proof. solve_decision. Defined.

Record Store := mkStore
  { users : gmap Z User.t;
    classes : gmap Z GymClass.t;
    bookings : list Booking.t }.

(** The error taxonomy; each handler's response is mapped on it. *)
Inductive Error :=
  | Unauthorized          (* 401, [Error('Unauthorized')] *)
  | Forbidden             (* 403 *)
  | ValidationError       (* 400 'Validation failed' *)
  | InvalidBookingDate    (* 400 'Invalid booking date' *)
  | NotFound              (* 404, [Error('Booking not found')], [Error('Class not found')] *)
  | ClassNotAvailable     (* 400 'Class not available' *)
  | CreditLimitExceeded   (* 400 'Insufficient concessions' *)
  | DuplicateBooking      (* 409 'Already booked' *)
  | ClassFull             (* 400 'Class full' *)
  | InvalidTransition     (* 400 'Cannot cancel booking' *)
  | InternalError.        (* 500 *)

Inductive Result (A : Type) :=
  | Ok (a : A)
  | Err (e : Error).
Arguments Ok {A} a.
Arguments Err {A} e.

(** ** Queries over the bookings table *)

Definition isConfirmed (b : Booking.t) : bool :=
  bool_decide (Booking.status b = Booking.confirmed).

(** [class_id = $1 AND booking_date = $2]. *)
Definition forClassDate (classId date : Z) (b : Booking.t) : bool :=
  (Booking.class_id b =? classId) && (Booking.booking_date b =? date).

(** [class_id = $1 AND booking_date = $2 AND status = from], the [WHERE]
    clause of a bulk transition. *)
Definition hit (from : Booking.Status) (classId date : Z) (b : Booking.t) : bool :=
  forClassDate classId date b && bool_decide (Booking.status b = from).

(** [user_id = $1 AND class_id = $2 AND booking_date = $3]. *)
Definition forUserClassDate (userId classId date : Z) (b : Booking.t) : bool :=
  (Booking.user_id b =? userId) && forClassDate classId date b.

(** [SELECT COUNT( * ) ... WHERE class_id = $1 AND booking_date = $2 AND status = 'confirmed']. *)
Definition countConfirmed (classId date : Z) (bs : list Booking.t) : nat :=
  length (List.filter (fun b => forClassDate classId date b && isConfirmed b) bs).

(** ** The two leaf policies *)

(** [isWithinBookingWindow]: [today] is the instant of the request,
    [booking] the instant the requested date denotes. *)
Definition isWithinBookingWindow (today booking : Z) : bool :=
  let diffTime := booking - today in
  let diffDays := Time.ceil_div diffTime Time.msPerDay in
  (0 <=? diffDays) && (diffDays <=? 14).

(** [hoursUntilClass], a number of hours, not rounded. *)
Definition hoursUntilClass (now bookingDate classTime : Z) : Q :=
  let classDateTime := Time.combine bookingDate classTime in
  (classDateTime - now) # 3600000.

(** [isLateCancellation] ([bookings.js]) and the same test inlined in
    [mockApi.bookings.cancel]. *)
Definition isLateCancellation (now bookingDate classTime : Z) : bool :=
  let h := hoursUntilClass now bookingDate classTime in
  Qle_bool h 24 && negb (Qle_bool h 0).

(** ** The server: [backend/src/routes/bookings.js], [users.js] *)

Module Server.

(** [authenticateToken]: the token names a user id; the user row must exist
    and be active. *)
Definition authenticateToken (userId : Z) (s : Store) : Result User.t :=
  match users s !! userId with
  | None => Err Unauthorized
  | Some user => if User.is_active user then Ok user else Err Unauthorized
  end.

(** [requireUser] and [requireAdmin]. *)
Definition requireRole (r : Role) (user : User.t) : Result unit :=
  if bool_decide (User.role user = r) then Ok tt else Err Forbidden.

(** The availability test inlined in the create handler: [true] when the
    handler answers 'Class not available'. A missing publish date compares
    as not later than today. *)
Definition notAvailable (classData : GymClass.t) (today : Z) : bool :=
  bool_decide (GymClass.status classData = GymClass.draft)
  || (bool_decide (GymClass.status classData = GymClass.scheduled)
      && match GymClass.publish_date classData with
         | Some publish_date => today <? publish_date
         | None => false
         end).

(** The row [INSERT INTO bookings ... VALUES ($1, $2, $3, 'confirmed', true)]
    creates; the other columns take their defaults. *)
Definition newBooking (newId userId classId bookingDate now : Z) : Booking.t :=
  {| Booking.id := newId; Booking.user_id := userId; Booking.class_id := classId;
     Booking.booking_date := bookingDate; Booking.status := Booking.confirmed;
     Booking.used_concession := true; Booking.booking_time := now;
     Booking.cancellation_time := None; Booking.is_late_cancellation := false |}.

(** The constraints of the bookings table an insert can violate:
    [id SERIAL PRIMARY KEY] and [UNIQUE(user_id, class_id, booking_date)]. *)
Definition violatesConstraint (nb : Booking.t) (bs : list Booking.t) : bool :=
  existsb (fun b => (Booking.id b =? Booking.id nb)
                    || forUserClassDate (Booking.user_id nb) (Booking.class_id nb)
                         (Booking.booking_date nb) b) bs.

(** [UPDATE users SET concessions = concessions + d WHERE id = $1]. *)
Definition addConcessions (userId d : Z) (us : gmap Z User.t) : gmap Z User.t :=
  alter (fun u => User.set_concessions (User.concessions u + d) u) userId us.

Record Created := mkCreated
  { created_store : Store;
    created_booking : Booking.t;
    created_isNegative : bool }.

(** [router.post('/')], behind [authenticateToken] and [requireUser]: [now]
    is the instant of the request, [newId] the value the id sequence yields.
    A missing [users] row at the balance read, or an insert the table's
    constraints refuse, throws into the handler's [catch]: 500. *)
Definition create (now userId classId bookingDate newId : Z) (s : Store)
  : Result Created :=
  match authenticateToken userId s with
  | Err e => Err e
  | Ok user =>
  match requireRole role_user user with
  | Err e => Err e
  | Ok _ =>
  if classId <? 1 then Err ValidationError else
  if negb (isWithinBookingWindow now (Time.midnight bookingDate))
  then Err InvalidBookingDate else
  match classes s !! classId with
  | None => Err NotFound
  | Some classData =>
  let today := Time.isoDate now in
  if notAvailable classData today then Err ClassNotAvailable else
  match users s !! userId with
  | None => Err InternalError
  | Some row =>
  let currentConcessions := User.concessions row in
  if currentConcessions <=? -5 then Err CreditLimitExceeded else
  if existsb (fun b => forUserClassDate userId classId bookingDate b && isConfirmed b)
       (bookings s)
  then Err DuplicateBooking else
  let currentBookings := Z.of_nat (countConfirmed classId bookingDate (bookings s)) in
  if GymClass.max_capacity classData <=? currentBookings then Err ClassFull else
  let nb := newBooking newId userId classId bookingDate now in
  if violatesConstraint nb (bookings s) then Err InternalError else
  Ok {| created_store :=
          {| users := addConcessions userId (-1) (users s);
             classes := classes s;
             bookings := bookings s ++ [nb] |};
        created_booking := nb;
        created_isNegative := currentConcessions - 1 <? 0 |}
  end end end end.

(** The rows of [bookings b JOIN classes c ON b.class_id = c.id WHERE b.id = $1],
    each with its class. *)
Definition joinedRows (bookingId : Z) (s : Store) : list (Booking.t * GymClass.t) :=
  omap (fun b => if Booking.id b =? bookingId
                 then (fun c => (b, c)) <$> classes s !! Booking.class_id b
                 else None) (bookings s).

Record Cancelled := mkCancelled
  { cancelled_store : Store;
    cancelled_isLate : bool;
    cancelled_refunded : bool }.

(** [UPDATE bookings SET status = $1, cancellation_time = CURRENT_TIMESTAMP,
    is_late_cancellation = $2 WHERE id = $3]. *)
Definition cancelRows (bookingId now : Z) (isLate : bool) (bs : list Booking.t)
  : list Booking.t :=
  map (fun b => if Booking.id b =? bookingId
                then Booking.set_cancelled
                       (if isLate then Booking.late_cancelled else Booking.cancelled)
                       now isLate b
                else b) bs.

(** [router.patch('/:id/cancel')], behind [authenticateToken]. *)
Definition cancel (now requesterId bookingId : Z) (s : Store) : Result Cancelled :=
  match authenticateToken requesterId s with
  | Err e => Err e
  | Ok user =>
  match joinedRows bookingId s with
  | [] => Err NotFound
  | (booking, class) :: _ =>
  if negb (bool_decide (User.role user = role_admin))
     && negb (Booking.user_id booking =? requesterId)
  then Err Forbidden else
  if negb (isConfirmed booking) then Err InvalidTransition else
  let isLate := isLateCancellation now (Booking.booking_date booking)
                  (GymClass.time class) in
  let refund := negb isLate && Booking.used_concession booking in
  Ok {| cancelled_store :=
          {| users := if refund
                      then addConcessions (Booking.user_id booking) 1 (users s)
                      else users s;
             classes := classes s;
             bookings := cancelRows bookingId now isLate (bookings s) |};
        cancelled_isLate := isLate;
        cancelled_refunded := refund |}
  end end.

(** [UPDATE bookings SET status = to WHERE class_id = $1 AND booking_date = $2
    AND status = from RETURNING *]: the new table and the rows returned. *)
Definition transitionRows (from to : Booking.Status) (classId date : Z)
  (bs : list Booking.t) : list Booking.t * list Booking.t :=
  (map (fun b => if hit from classId date b then Booking.set_status to b else b) bs,
   map (Booking.set_status to) (List.filter (hit from classId date) bs)).

(** The two bulk handlers, behind [authenticateToken] and [requireAdmin]. *)
Definition bulkTransition (from to : Booking.Status) (requesterId classId date : Z)
  (s : Store) : Result (Store * Z) :=
  match authenticateToken requesterId s with
  | Err e => Err e
  | Ok user =>
  match requireRole role_admin user with
  | Err e => Err e
  | Ok _ =>
  if classId <? 1 then Err ValidationError else
  let result := transitionRows from to classId date (bookings s) in
  let updatedCount := Z.of_nat (length (snd result)) in
  Ok ({| users := users s; classes := classes s; bookings := fst result |},
      updatedCount)
  end end.

(** [router.patch('/complete-class')]. *)
Definition completeClass := bulkTransition Booking.confirmed Booking.completed.

(** [router.patch('/undo-complete-class')]. *)
Definition undoCompleteClass := bulkTransition Booking.completed Booking.confirmed.

(** [router.patch('/:id/concessions')] of [users.js]: [concessions] is the
    signed amount of the request body. *)
Definition updateConcessions (requesterId userId concessions : Z) (s : Store)
  : Result (Store * User.t) :=
  match authenticateToken requesterId s with
  | Err e => Err e
  | Ok user =>
  match requireRole role_admin user with
  | Err e => Err e
  | Ok _ =>
  match users s !! userId with
  | None => Err NotFound
  | Some row =>
  let currentConcessions := User.concessions row in
  let newConcessions := currentConcessions + concessions in
  let updatedUser := User.set_concessions newConcessions row in
  Ok ({| users := <[userId := updatedUser]> (users s);
         classes := classes s; bookings := bookings s |}, updatedUser)
  end end end.

End Server.

(** ** The browser-local store: [services/mockApi.ts] *)

Module Mock.

(** [Array.prototype.findIndex]; [None] stands for -1. *)
Fixpoint findIndex {A : Type} (p : A -> bool) (l : list A) : option nat :=
  match l with
  | [] => None
  | x :: l' => if p x then Some 0%nat else S <$> findIndex p l'
  end.

(** [getUserByToken]: [token] is the id of the user the stored token
    stands for. *)
Definition getUserByToken (token : Z) (s : Store) : option User.t :=
  users s !! token.

(** [updateUserConcessions]. *)
Definition updateUserConcessions (userId newConcessions : Z) (us : gmap Z User.t)
  : gmap Z User.t :=
  alter (User.set_concessions newConcessions) userId us.

(** [isClassAvailableForBooking]. *)
Definition isClassAvailableForBooking (gymClass : GymClass.t) (today : Z) : bool :=
  match GymClass.status gymClass with
  | GymClass.draft => false
  | GymClass.published => true
  | GymClass.scheduled =>
      match GymClass.publish_date gymClass with
      | Some publish_date => publish_date <=? today
      | None => false
      end
  | GymClass.archived => false
  end.

(** The booking [mockApi.bookings.create] builds; its id is [Date.now()]. *)
Definition newBooking (userId classId bookingDate now : Z) : Booking.t :=
  {| Booking.id := now; Booking.user_id := userId; Booking.class_id := classId;
     Booking.booking_date := bookingDate; Booking.status := Booking.confirmed;
     Booking.used_concession := true; Booking.booking_time := now;
     Booking.cancellation_time := None; Booking.is_late_cancellation := false |}.

Record Created := mkCreated
  { created_store : Store;
    created_booking : Booking.t;
    created_isNegative : bool }.

(** [mockApi.bookings.create]. *)
Definition create (now token classId bookingDate : Z) (s : Store) : Result Created :=
  match getUserByToken token s with
  | None => Err Unauthorized
  | Some user =>
  if User.concessions user <=? -5 then Err CreditLimitExceeded else
  match classes s !! classId with
  | None => Err ClassNotAvailable
  | Some gymClass =>
  if negb (isClassAvailableForBooking gymClass (Time.isoDate now))
  then Err ClassNotAvailable else
  if existsb (fun b => forUserClassDate token classId bookingDate b && isConfirmed b)
       (bookings s)
  then Err DuplicateBooking else
  let nb := newBooking token classId bookingDate now in
  Ok {| created_store :=
          {| users := updateUserConcessions token (User.concessions user - 1) (users s);
             classes := classes s;
             bookings := bookings s ++ [nb] |};
        created_booking := nb;
        created_isNegative := User.concessions user - 1 <? 0 |}
  end end.

Record Cancelled := mkCancelled
  { cancelled_store : Store;
    cancelled_isLate : bool;
    cancelled_refunded : bool }.

(** [mockApi.bookings.cancel]. The index [findIndex] returns is within the
    array ([findIndex_Some]); the [InternalError] branch stands for an
    [undefined] element and is never taken. *)
Definition cancel (now token id : Z) (s : Store) : Result Cancelled :=
  match getUserByToken token s with
  | None => Err Unauthorized
  | Some user =>
  match findIndex (fun b => (Booking.id b =? id) && (Booking.user_id b =? token))
          (bookings s) with
  | None => Err NotFound
  | Some bookingIndex =>
  match bookings s !! bookingIndex with
  | None => Err InternalError
  | Some booking =>
  match classes s !! Booking.class_id booking with
  | None => Err NotFound
  | Some gymClass =>
  let isLate := isLateCancellation now (Booking.booking_date booking)
                  (GymClass.time gymClass) in
  let originalUsedConcession := Booking.used_concession booking in
  let booking' := Booking.set_cancelled
                    (if isLate then Booking.late_cancelled else Booking.cancelled)
                    now isLate booking in
  let refund := negb isLate && originalUsedConcession in
  Ok {| cancelled_store :=
          {| users := if refund
                      then updateUserConcessions token (User.concessions user + 1) (users s)
                      else users s;
             classes := classes s;
             bookings := <[bookingIndex := booking']> (bookings s) |};
        cancelled_isLate := isLate;
        cancelled_refunded := refund |}
  end end end end.

(** The [map] of [completeClass] and [undoCompleteClass], and the number
    they return as [updated_bookings]. *)
Definition transition (from to : Booking.Status) (classId bookingDate : Z)
  (s : Store) : Store * Z :=
  let updatedBookings :=
    map (fun b => if hit from classId bookingDate b
                  then Booking.set_status to b else b) (bookings s) in
  ({| users := users s; classes := classes s; bookings := updatedBookings |},
   Z.of_nat (length (List.filter (forClassDate classId bookingDate) updatedBookings))).

(** [mockApi.bookings.completeClass]. *)
Definition completeClass := transition Booking.confirmed Booking.completed.

(** [mockApi.bookings.undoCompleteClass]. *)
Definition undoCompleteClass := transition Booking.completed Booking.confirmed.

(** [mockApi.users.updateConcessions]. *)
Definition updateConcessions (id concessions : Z) (s : Store) : Result (Store * User.t) :=
  match users s !! id with
  | None => Err NotFound
  | Some row =>
  let currentConcessions := User.concessions row in
  let newConcessions := currentConcessions + concessions in
  let updatedUser := User.set_concessions newConcessions row in
  Ok ({| users := <[id := updatedUser]> (users s);
         classes := classes s; bookings := bookings s |}, updatedUser)
  end.

End Mock.

(** ** Sequences of booking-lifecycle operations *)

Inductive Op :=
  | OpCreate (now userId classId bookingDate newId : Z)
  | OpCancel (now requesterId bookingId : Z)
  | OpCompleteClass (requesterId classId bookingDate : Z)
  | OpUndoCompleteClass (requesterId classId bookingDate : Z).

Module ServerRun.

(** The store after one request; a rejected request leaves it as it was. *)
Definition step (s : Store) (op : Op) : Store :=
  match op with
  | OpCreate now userId classId bookingDate newId =>
      match Server.create now userId classId bookingDate newId s with
      | Ok r => Server.created_store r
      | Err _ => s
      end
  | OpCancel now requesterId bookingId =>
      match Server.cancel now requesterId bookingId s with
      | Ok r => Server.cancelled_store r
      | Err _ => s
      end
  | OpCompleteClass requesterId classId bookingDate =>
      match Server.completeClass requesterId classId bookingDate s with
      | Ok r => fst r
      | Err _ => s
      end
  | OpUndoCompleteClass requesterId classId bookingDate =>
      match Server.undoCompleteClass requesterId classId bookingDate s with
      | Ok r => fst r
      | Err _ => s
      end
  end.

Definition run (ops : list Op) (s : Store) : Store := fold_left step ops s.

End ServerRun.

Module MockRun.

(** The mock takes its booking ids from the clock and does no admin check on
    the two bulk operations: [newId] and their [requesterId] are not used. *)
Definition step (s : Store) (op : Op) : Store :=
  match op with
  | OpCreate now token classId bookingDate _ =>
      match Mock.create now token classId bookingDate s with
      | Ok r => Mock.created_store r
      | Err _ => s
      end
  | OpCancel now token bookingId =>
      match Mock.cancel now token bookingId s with
      | Ok r => Mock.cancelled_store r
      | Err _ => s
      end
  | OpCompleteClass _ classId bookingDate =>
      fst (Mock.completeClass classId bookingDate s)
  | OpUndoCompleteClass _ classId bookingDate =>
      fst (Mock.undoCompleteClass classId bookingDate s)
  end.

Definition run (ops : list Op) (s : Store) : Store := fold_left step ops s.

End MockRun.

(** ** Invariants *)

(** The balance of a user, when the user exists. *)
Definition balance (userId : Z) (s : Store) : option Z :=
  User.concessions <$> users s !! userId.


(** No (class, date) pair has more confirmed bookings than the class has
    seats. *)
Definition capacityOk (s : Store) : Prop :=
  forall classId c date,
    classes s !! classId = Some c ->
    Z.of_nat (countConfirmed classId date (bookings s)) <= GymClass.max_capacity c.

(** ** Vocabulary of the statements *)

(** A create request reaches the handler's checks: the token names an active
    user of role [user], and the class id passes validation. *)
Definition reachesHandler (userId classId : Z) (s : Store) : Prop :=
  exists user, users s !! userId = Some user
               /\ User.is_active user = true
               /\ User.role user = role_user
               /\ 1 <= classId.

(** The checks of the create handler, in the order of its early returns. *)
Record createPasses (now userId classId bookingDate newId : Z) (s : Store)
  (user : User.t) (classData : GymClass.t) : Prop := mkCreatePasses
  { passes_user : users s !! userId = Some user;
    passes_window : isWithinBookingWindow now (Time.midnight bookingDate) = true;
    passes_class : classes s !! classId = Some classData;
    passes_available : Server.notAvailable classData (Time.isoDate now) = false;
    passes_credit : -5 < User.concessions user;
    passes_duplicate :
      existsb (fun b => forUserClassDate userId classId bookingDate b && isConfirmed b)
        (bookings s) = false;
    passes_capacity :
      Z.of_nat (countConfirmed classId bookingDate (bookings s))
      < GymClass.max_capacity classData;
    passes_constraint :
      Server.violatesConstraint
        (Server.newBooking newId userId classId bookingDate now) (bookings s) = false }.

(** The response of the server to an accepted create request. *)
Definition createdBy (now userId classId bookingDate newId : Z) (s : Store)
  (user : User.t) : Server.Created :=
  let nb := Server.newBooking newId userId classId bookingDate now in
  {| Server.created_store :=
       {| users := Server.addConcessions userId (-1) (users s);
          classes := classes s;
          bookings := bookings s ++ [nb] |};
     Server.created_booking := nb;
     Server.created_isNegative := User.concessions user - 1 <? 0 |}.

(** The response of the server to an accepted cancel request, for the
    first joined row and its class. *)
Definition cancelledBy (now bookingId : Z) (s : Store) (booking : Booking.t)
  (class : GymClass.t) : Server.Cancelled :=
  let isLate := isLateCancellation now (Booking.booking_date booking)
                  (GymClass.time class) in
  let refund := negb isLate && Booking.used_concession booking in
  {| Server.cancelled_store :=
       {| users := if refund
                   then Server.addConcessions (Booking.user_id booking) 1 (users s)
                   else users s;
          classes := classes s;
          bookings := Server.cancelRows bookingId now isLate (bookings s) |};
     Server.cancelled_isLate := isLate;
     Server.cancelled_refunded := refund |}.

(** The result of the mock's create, when it does not throw. *)
Definition mockCreatedBy (now token classId bookingDate : Z) (s : Store)
  (user : User.t) : Mock.Created :=
  let nb := Mock.newBooking token classId bookingDate now in
  {| Mock.created_store :=
       {| users := Mock.updateUserConcessions token (User.concessions user - 1) (users s);
          classes := classes s;
          bookings := bookings s ++ [nb] |};
     Mock.created_booking := nb;
     Mock.created_isNegative := User.concessions user - 1 <? 0 |}.

(** The result of the mock's cancel, when it does not throw. *)
Definition mockCancelledBy (now token : Z) (s : Store) (user : User.t)
  (bookingIndex : nat) (booking : Booking.t) (gymClass : GymClass.t) : Mock.Cancelled :=
  let isLate := isLateCancellation now (Booking.booking_date booking)
                  (GymClass.time gymClass) in
  let refund := negb isLate && Booking.used_concession booking in
  {| Mock.cancelled_store :=
       {| users := if refund
                   then Mock.updateUserConcessions token (User.concessions user + 1) (users s)
                   else users s;
          classes := classes s;
          bookings :=
            <[bookingIndex :=
                Booking.set_cancelled
                  (if isLate then Booking.late_cancelled else Booking.cancelled)
                  now isLate booking]> (bookings s) |};
     Mock.cancelled_isLate := isLate;
     Mock.cancelled_refunded := refund |}.

(** The row counts as a taken seat of the pair. *)
Definition seatTaken (classId date : Z) (b : Booking.t) : bool :=
  forClassDate classId date b && isConfirmed b.

(** The sequences the capacity bound survives. *)
Definition notUndo (op : Op) : Prop :=
  match op with
  | OpUndoCompleteClass _ _ _ => False
  | _ => True
  end.

(** The [concessionRefunded] field of a cancel response, or its error. *)
Definition serverRefunded (r : Result Server.Cancelled) : Result bool :=
  match r with
  | Ok c => Ok (Server.cancelled_refunded c)
  | Err e => Err e
  end.

(** The [concessionRefunded] field of the mock's cancel, or its error. *)
Definition mockRefunded (r : Result Mock.Cancelled) : Result bool :=
  match r with
  | Ok c => Ok (Mock.cancelled_refunded c)
  | Err e => Err e
  end.

(** The columns no request writes after the insert. *)
Definition frozen (b : Booking.t) : Z * Z * Z * Z * bool * Z :=
  (Booking.id b, Booking.user_id b, Booking.class_id b, Booking.booking_date b,
   Booking.used_concession b, Booking.booking_time b).




(** What the two create paths test: the publication state alone. *)
Definition published_or_due (c : GymClass.t) (today : Z) : Prop :=
  GymClass.status c = GymClass.published
  \/ (GymClass.status c = GymClass.scheduled
      /\ exists publish_date,
           GymClass.publish_date c = Some publish_date /\ publish_date <= today).




(** A request of an administrator with a valid class id. *)
Definition adminRequest (requesterId classId : Z) (s : Store) : Prop :=
  exists user, users s !! requesterId = Some user
               /\ User.is_active user = true
               /\ User.role user = role_admin
               /\ 1 <= classId.

(** The [updated_bookings] field of a bulk response, or its error. *)
Definition serverCount (r : Result (Store * Z)) : Result Z :=
  match r with
  | Ok p => Ok (snd p)
  | Err e => Err e
  end.

(** The bookings table after a bulk request, or its error. *)
Definition serverBookings (r : Result (Store * Z)) : Result (list Booking.t) :=
  match r with
  | Ok p => Ok (bookings (fst p))
  | Err e => Err e
  end.

(** The token names an active administrator. *)
Definition activeAdmin (requesterId : Z) (s : Store) : Prop :=
  exists user, users s !! requesterId = Some user
               /\ User.is_active user = true
               /\ User.role user = role_admin.


(** ** Sample stores *)

(** An active member with balance [n]. *)
Definition member (n : Z) : User.t :=
  {| User.role := role_user; User.concessions := n; User.is_active := true |}.

(** An active administrator. *)
Definition admin : User.t :=
  {| User.role := role_admin; User.concessions := 10; User.is_active := true |}.

(** A published class at 07:00 with [capacity] seats. *)
Definition openClass (capacity : Z) : GymClass.t :=
  {| GymClass.time := 7 * 60; GymClass.max_capacity := capacity;
     GymClass.status := GymClass.published;
     GymClass.publish_date := None; GymClass.end_date := None |}.


(** One seat, two members and an administrator. *)
Definition oneSeatStore : Store :=
  {| users := {[ 1 := admin; 2 := member 5; 3 := member 5 ]};
     classes := {[ 1 := openClass 1 ]};
     bookings := [] |}.

(** The seat freed by completeClass is booked by another member, and
    undoCompleteClass then confirms both bookings of the one-seat class. *)
Definition overbooking : list Op :=
  [ OpCreate 0 2 1 1 100;
    OpCompleteClass 1 1 1;
    OpCreate 0 3 1 1 101;
    OpUndoCompleteClass 1 1 1 ].

(** A member's confirmed booking, ten days ahead of instant 0. *)
Definition bookedStore : Store :=
  {| users := {[ 1 := admin; 2 := member 4; 3 := member 5 ]};
     classes := {[ 1 := openClass 20 ]};
     bookings := [ Server.newBooking 100 2 1 10 0 ] |}.



(** One confirmed and one cancelled booking of class 1 on day 10. *)
Definition classDay : Store :=
  {| users := {[ 1 := admin; 2 := member 4; 3 := member 5 ]};
     classes := {[ 1 := openClass 20 ]};
     bookings := [ Server.newBooking 100 2 1 10 0;
                   Booking.set_cancelled Booking.cancelled 5 false
                     (Server.newBooking 101 3 1 10 0) ] |}.

(** A member at the credit floor. *)
Definition flooredStore : Store :=
  {| users := {[ 1 := admin; 2 := member (-5) ]};
     classes := {[ 1 := openClass 20 ]};
     bookings := [] |}.

(** ** More of the server: [users.js], the listings of [bookings.js], [classes.js] *)

(** [b.status = st]. *)
Definition hitStatus (st : Booking.Status) (b : Booking.t) : bool :=
  bool_decide (Booking.status b = st).

(** [ORDER BY b.booking_date DESC, c.time DESC] over rows of a booking and
    its class: [precedes r1 r2] when [r1] sorts strictly before [r2] or
    ties with it. The sort below keeps tied rows in table order. *)
Definition precedes (r1 r2 : Booking.t * GymClass.t) : bool :=
  (Booking.booking_date (fst r2) <? Booking.booking_date (fst r1))
  || ((Booking.booking_date (fst r1) =? Booking.booking_date (fst r2))
      && (GymClass.time (snd r2) <=? GymClass.time (snd r1))).

(** [ORDER BY]: rows are put in order by insertion, a row going before the
    first row it precedes. *)
Fixpoint insertBy {A : Type} (le : A -> A -> bool) (r : A) (l : list A) : list A :=
  match l with
  | [] => [r]
  | x :: l' => if le r x then r :: x :: l' else x :: insertBy le r l'
  end.

Definition orderBy {A : Type} (le : A -> A -> bool) (l : list A) : list A :=
  foldr (insertBy le) [] l.

Definition orderRows (l : list (Booking.t * GymClass.t)) : list (Booking.t * GymClass.t) :=
  orderBy precedes l.

(** [bookings b JOIN classes c ON b.class_id = c.id WHERE p b]. *)
Definition joinClasses (p : Booking.t -> bool) (s : Store) : list (Booking.t * GymClass.t) :=
  omap (fun b => if p b then (fun c => (b, c)) <$> classes s !! Booking.class_id b
                 else None) (bookings s).

(** [... JOIN users u ON b.user_id = u.id JOIN classes c ON b.class_id = c.id
    WHERE p b]: the rows of [joinClasses] whose user exists. *)
Definition joinUsersClasses (p : Booking.t -> bool) (s : Store)
  : list (Booking.t * GymClass.t) :=
  joinClasses (fun b => p b && bool_decide (is_Some (users s !! Booking.user_id b))) s.

Module Listings.

(** [router.get('/my-bookings')], behind [authenticateToken] and
    [requireUser]. *)
Definition myBookings (userId : Z) (s : Store) : Result (list (Booking.t * GymClass.t)) :=
  match Server.authenticateToken userId s with
  | Err e => Err e
  | Ok user =>
  match Server.requireRole role_user user with
  | Err e => Err e
  | Ok _ =>
  Ok (orderRows (joinClasses (fun b => Booking.user_id b =? userId) s))
  end end.

(** The query parameters of [router.get('/')]; an absent (or empty)
    parameter is [None]. *)
Record Filters := mkFilters
  { f_status : option Booking.Status;
    f_date : option Z;
    f_user_id : option Z;
    f_class_id : option Z }.

(** The [WHERE 1=1 AND ...] clause the handler builds. *)
Definition matches (f : Filters) (b : Booking.t) : bool :=
  match f_status f with
  | Some st => bool_decide (Booking.status b = st)
  | None => true
  end
  && match f_date f with
     | Some d => Booking.booking_date b =? d
     | None => true
     end
  && match f_user_id f with
     | Some u => Booking.user_id b =? u
     | None => true
     end
  && match f_class_id f with
     | Some c => Booking.class_id b =? c
     | None => true
     end.

(** [router.get('/')] of [bookings.js], behind [authenticateToken] and
    [requireAdmin]. *)
Definition getAll (requesterId : Z) (f : Filters) (s : Store)
  : Result (list (Booking.t * GymClass.t)) :=
  match Server.authenticateToken requesterId s with
  | Err e => Err e
  | Ok user =>
  match Server.requireRole role_admin user with
  | Err e => Err e
  | Ok _ =>
  Ok (orderRows (joinUsersClasses (matches f) s))
  end end.

End Listings.

Module Users.

(** [router.patch('/:id/toggle-active')]:
    [UPDATE users SET is_active = NOT is_active WHERE id = $1 RETURNING ...]. *)
Definition toggleActive (requesterId userId : Z) (s : Store) : Result (Store * User.t) :=
  match Server.authenticateToken requesterId s with
  | Err e => Err e
  | Ok user =>
  match Server.requireRole role_admin user with
  | Err e => Err e
  | Ok _ =>
  match users s !! userId with
  | None => Err NotFound
  | Some row =>
  let updatedUser :=
    {| User.role := User.role row; User.concessions := User.concessions row;
       User.is_active := negb (User.is_active row) |} in
  Ok ({| users := <[userId := updatedUser]> (users s);
         classes := classes s; bookings := bookings s |}, updatedUser)
  end end end.

Record Pagination := mkPagination
  { total : Z;
    limit : Z;
    offset : Z;
    hasMore : bool }.

(** [router.get('/:id/bookings')]: a negative [LIMIT] or [OFFSET] is an
    error of the database, caught by the handler: 500. The total is counted
    on the bookings table alone. *)
Definition userBookings (requesterId userId limit offset : Z) (s : Store)
  : Result (list (Booking.t * GymClass.t) * Pagination) :=
  match Server.authenticateToken requesterId s with
  | Err e => Err e
  | Ok user =>
  match Server.requireRole role_admin user with
  | Err e => Err e
  | Ok _ =>
  if (limit <? 0) || (offset <? 0) then Err InternalError else
  let rows := take (Z.to_nat limit)
                (drop (Z.to_nat offset)
                   (orderRows (joinClasses (fun b => Booking.user_id b =? userId) s))) in
  let total := Z.of_nat (length (List.filter (fun b => Booking.user_id b =? userId)
                                   (bookings s))) in
  Ok (rows, {| total := total; limit := limit; offset := offset;
               hasMore := offset + Z.of_nat (length rows) <? total |})
  end end.

Section WithNotes.

(** The notes table: the two queries below read only [n.id], never null,
    and [n.user_id]. *)
Context {Note : Type} (note_user_id : Note -> Z).

(** The rows a [LEFT JOIN] gives a left row with matches [l]: one per
    match, or one with nulls. *)
Definition leftJoin {A : Type} (l : list A) : list (option A) :=
  match l with
  | [] => [None]
  | _ => map Some l
  end.

(** The rows of one user in [users u LEFT JOIN notes n ON u.id = n.user_id
    LEFT JOIN bookings b ON u.id = b.user_id]. *)
Definition joinedUserRows (userId : Z) (notes : list Note) (s : Store)
  : list (option Note * option Booking.t) :=
  flat_map (fun n => map (fun b => (n, b))
                       (leftJoin (List.filter (fun b => Booking.user_id b =? userId)
                                    (bookings s))))
    (leftJoin (List.filter (fun n => note_user_id n =? userId) notes)).

(** [COUNT(b.id) FILTER (WHERE b.status = st)] over joined rows. *)
Definition countStatus (st : Booking.Status) (rows : list (option Note * option Booking.t))
  : Z :=
  Z.of_nat (length (List.filter
    (fun r => match snd r with
              | Some b => bool_decide (Booking.status b = st)
              | None => false
              end) rows)).

Record UserSummary := mkUserSummary
  { summary_user : User.t;
    note_count : Z;
    active_bookings : Z;
    completed_classes : Z }.

(** [router.get('/:id')] of [users.js]. *)
Definition getUser (requesterId userId : Z) (notes : list Note) (s : Store)
  : Result UserSummary :=
  match Server.authenticateToken requesterId s with
  | Err e => Err e
  | Ok user =>
  match Server.requireRole role_admin user with
  | Err e => Err e
  | Ok _ =>
  match users s !! userId with
  | None => Err NotFound
  | Some row =>
  let rows := joinedUserRows userId notes s in
  Ok {| summary_user := row;
        note_count := Z.of_nat (length (List.filter (fun r => bool_decide (is_Some (fst r)))
                                          rows));
        active_bookings := countStatus Booking.confirmed rows;
        completed_classes := countStatus Booking.completed rows |}
  end end end.

Record Stats := mkStats
  { confirmed_bookings : Z;
    stats_completed_classes : Z;
    cancelled_bookings : Z;
    late_cancelled_bookings : Z;
    upcoming_bookings : Z;
    concessions_used : Z;
    stats_note_count : Z }.

(** [COUNT( * ) FILTER (WHERE p)] over the bookings of one user. *)
Definition countOf (userId : Z) (p : Booking.t -> bool) (s : Store) : Z :=
  Z.of_nat (length (List.filter (fun b => (Booking.user_id b =? userId) && p b)
                      (bookings s))).

(** [router.get('/:id/stats')]: [now] gives [CURRENT_DATE]. The handler
    does not look the user up. *)
Definition stats (now requesterId userId : Z) (notes : list Note) (s : Store)
  : Result Stats :=
  match Server.authenticateToken requesterId s with
  | Err e => Err e
  | Ok user =>
  match Server.requireRole role_admin user with
  | Err e => Err e
  | Ok _ =>
  let today := Time.isoDate now in
  Ok {| confirmed_bookings := countOf userId (hitStatus Booking.confirmed) s;
        stats_completed_classes := countOf userId (hitStatus Booking.completed) s;
        cancelled_bookings := countOf userId (hitStatus Booking.cancelled) s;
        late_cancelled_bookings := countOf userId (hitStatus Booking.late_cancelled) s;
        upcoming_bookings :=
          countOf userId (fun b => hitStatus Booking.confirmed b
                                   && (today <? Booking.booking_date b)) s;
        concessions_used := countOf userId Booking.used_concession s;
        stats_note_count :=
          Z.of_nat (length (List.filter (fun n => note_user_id n =? userId) notes)) |}
  end end.

End WithNotes.

End Users.

Module Classes.

(** [isClassAvailableForBooking] of [classes.js]. *)
Definition isClassAvailableForBooking (classData : GymClass.t) (today : Z) : bool :=
  if bool_decide (GymClass.status classData = GymClass.draft) then false else
  if bool_decide (GymClass.status classData = GymClass.published) then true else
  if bool_decide (GymClass.status classData = GymClass.scheduled)
     && bool_decide (is_Some (GymClass.publish_date classData))
  then match GymClass.publish_date classData with
       | Some publish_date => publish_date <=? today
       | None => false
       end
  else false.



(** What [router.delete('/:id')] answers: 400 with the number of active
    future bookings, another error, or success. *)
Inductive Deleted :=
  | DeleteRefused (activeBookings : Z)
  | DeleteFailed (e : Error)
  | DeleteDone (s : Store).

(** [WHERE class_id = $1 AND status = 'confirmed' AND booking_date > CURRENT_DATE]. *)
Definition activeFuture (classId today : Z) (b : Booking.t) : bool :=
  (Booking.class_id b =? classId) && isConfirmed b && (today <? Booking.booking_date b).

(** [router.delete('/:id')], behind [authenticateToken] and [requireAdmin]:
    [now] gives [CURRENT_DATE]. Deleting the class row deletes the bookings
    that refer to it ([class_id ... REFERENCES classes(id) ON DELETE CASCADE]). *)
Definition deleteClass (now requesterId classId : Z) (s : Store) : Deleted :=
  match Server.authenticateToken requesterId s with
  | Err e => DeleteFailed e
  | Ok user =>
  match Server.requireRole role_admin user with
  | Err e => DeleteFailed e
  | Ok _ =>
  let activeBookings :=
    Z.of_nat (length (List.filter (activeFuture classId (Time.isoDate now)) (bookings s))) in
  if 0 <? activeBookings then DeleteRefused activeBookings else
  match classes s !! classId with
  | None => DeleteFailed NotFound
  | Some _ =>
  DeleteDone {| users := users s;
                classes := delete classId (classes s);
                bookings := List.filter (fun b => negb (Booking.class_id b =? classId))
                              (bookings s) |}
  end end end.



End Classes.

Module MockClasses.

(** [b.class_id === id && b.status === 'confirmed' &&
    new Date(b.booking_date) > new Date()]. *)
Definition activeFuture (id now : Z) (b : Booking.t) : bool :=
  (Booking.class_id b =? id) && isConfirmed b
  && (now <? Time.midnight (Booking.booking_date b)).

(** What [mockApi.classes.delete] does: it throws
    'Cannot delete class with active future bookings' or another error, or
    it deletes. *)
Inductive Deleted :=
  | DeleteRefused
  | DeleteFailed (e : Error)
  | DeleteDone (s : Store).

(** [mockApi.classes.delete]: the bookings array is left as it is. *)
Definition delete (now token id : Z) (s : Store) : Deleted :=
  match Mock.getUserByToken token s with
  | None => DeleteFailed Unauthorized
  | Some user =>
  if negb (bool_decide (User.role user = role_admin))
  then DeleteFailed Unauthorized else
  match classes s !! id with
  | None => DeleteFailed NotFound
  | Some _ =>
  if existsb (activeFuture id now) (bookings s)
  then DeleteRefused
  else DeleteDone {| users := users s;
                     classes := base.delete id (classes s);
                     bookings := bookings s |}
  end end.

End MockClasses.

(** ** Every request of the server that writes a table *)

Inductive Request :=
  | ReqLifecycle (op : Op)
  | ReqUpdateConcessions (requesterId userId concessions : Z)
  | ReqToggleActive (requesterId userId : Z)
  | ReqDeleteClass (now requesterId classId : Z).

Module ServerAll.

(** The store after one request; a refused request leaves it as it was. *)
Definition step (s : Store) (r : Request) : Store :=
  match r with
  | ReqLifecycle op => ServerRun.step s op
  | ReqUpdateConcessions requesterId userId concessions =>
      match Server.updateConcessions requesterId userId concessions s with
      | Ok p => fst p
      | Err _ => s
      end
  | ReqToggleActive requesterId userId =>
      match Users.toggleActive requesterId userId s with
      | Ok p => fst p
      | Err _ => s
      end
  | ReqDeleteClass now requesterId classId =>
      match Classes.deleteClass now requesterId classId s with
      | Classes.DeleteDone s' => s'
      | _ => s
      end
  end.

Definition run (rs : list Request) (s : Store) : Store := fold_left step rs s.

End ServerAll.

(** Every booking refers to a user and to a class of the store: the two
    foreign keys of the bookings table. *)
Definition refIntegrity (s : Store) : Prop :=
  forall b, b ∈ bookings s ->
    is_Some (users s !! Booking.user_id b) /\ is_Some (classes s !! Booking.class_id b).

(** [(user_id, class_id, booking_date)], the columns of the table's
    [UNIQUE] constraint. *)
Definition triple (b : Booking.t) : Z * Z * Z :=
  (Booking.user_id b, Booking.class_id b, Booking.booking_date b).

(** The two constraints of the bookings table hold. *)
Definition constraintsOk (s : Store) : Prop :=
  NoDup (map Booking.id (bookings s)) /\ NoDup (map triple (bookings s)).



(** Every booking has its [used_concession] flag set. *)
Definition allUsed (s : Store) : Prop :=
  Forall (fun b => Booking.used_concession b = true) (bookings s).

(** The notes and the bookings of a user. *)
Definition notesOf {Note : Type} (note_user_id : Note -> Z) (userId : Z)
  (notes : list Note) : list Note :=
  List.filter (fun n => note_user_id n =? userId) notes.

Definition bookingsOf (userId : Z) (s : Store) : list Booking.t :=
  List.filter (fun b => Booking.user_id b =? userId) (bookings s).

(** A member with a confirmed booking, a completed one and one cancelled
    in good time. *)
Definition threeBookingsStore : Store :=
  {| users := {[ 1 := admin; 2 := member 3 ]};
     classes := {[ 1 := openClass 20 ]};
     bookings := [ Server.newBooking 100 2 1 10 0;
                   Booking.set_status Booking.completed (Server.newBooking 101 2 1 3 0);
                   Booking.set_cancelled Booking.cancelled 5 false
                     (Server.newBooking 102 2 1 12 0) ] |}.



(** The checks of the create handler that come before its insert. *)
Record passesChecks (now userId classId bookingDate : Z) (s : Store)
  (user : User.t) (classData : GymClass.t) : Prop := mkPassesChecks
  { checks_user : users s !! userId = Some user;
    checks_window : isWithinBookingWindow now (Time.midnight bookingDate) = true;
    checks_class : classes s !! classId = Some classData;
    checks_available : Server.notAvailable classData (Time.isoDate now) = false;
    checks_credit : -5 < User.concessions user;
    checks_duplicate :
      existsb (fun b => forUserClassDate userId classId bookingDate b && isConfirmed b)
        (bookings s) = false;
    checks_capacity :
      Z.of_nat (countConfirmed classId bookingDate (bookings s))
      < GymClass.max_capacity classData }.

(** What one request does to the tables: it updates rows of the bookings
    table in place, without touching their frozen columns; or it inserts
    one row, which the constraints accept; or it deletes a class with the
    bookings that refer to it. No request adds or removes a user. *)
Inductive stepShape (s s' : Store) : Prop :=
  | ShapeUpdate (f : Booking.t -> Booking.t) :
      (forall b, frozen (f b) = frozen b) ->
      classes s' = classes s ->
      (forall k, is_Some (users s' !! k) <-> is_Some (users s !! k)) ->
      bookings s' = map f (bookings s) ->
      stepShape s s'
  | ShapeInsert (nb : Booking.t) :
      classes s' = classes s ->
      (forall k, is_Some (users s' !! k) <-> is_Some (users s !! k)) ->
      bookings s' = bookings s ++ [nb] ->
      Booking.used_concession nb = true ->
      is_Some (users s !! Booking.user_id nb) ->
      is_Some (classes s !! Booking.class_id nb) ->
      Server.violatesConstraint nb (bookings s) = false ->
      stepShape s s'
  | ShapeDelete (classId : Z) :
      users s' = users s ->
      classes s' = delete classId (classes s) ->
      bookings s' = List.filter (fun b => negb (Booking.class_id b =? classId)) (bookings s) ->
      stepShape s s'.

(** ** Callers in the pages: [BookingContext.tsx], [BookingPage.tsx], [UserManagement.tsx] *)

Module BookingContext.

(** [isClassAvailableForBooking] of [BookingContext.tsx], by which the
    context filters the classes it loads and guards [bookClass]. A class of
    the model has a status, so the branch for a class without one is not
    reached. *)
Definition isClassAvailableForBooking (gymClass : GymClass.t) (today : Z) : bool :=
  let ended := match GymClass.end_date gymClass with
               | Some end_date => end_date <? today
               | None => false
               end in
  if bool_decide (GymClass.status gymClass = GymClass.draft) then false else
  if bool_decide (GymClass.status gymClass = GymClass.published)
  then (if ended then false else true) else
  if bool_decide (GymClass.status gymClass = GymClass.scheduled)
     && bool_decide (is_Some (GymClass.publish_date gymClass))
  then match GymClass.publish_date gymClass with
       | Some publish_date =>
           if today <? publish_date then false else
           if ended then false else true
       | None => false
       end
  else false.


End BookingContext.

Module BookingPage.

(** [user?.concessions || 0]. *)
Definition concessionsOf (user : option User.t) : Z :=
  match user with
  | Some u => User.concessions u
  | None => 0
  end.


(** The two early returns of [handleBookClass]: [true] when no request is
    sent. *)
Definition handlerBlocks (user : option User.t) : bool :=
  match user with
  | None => true
  | Some _ => concessionsOf user <? -5
  end.

Definition canBook (user : option User.t) : bool := -5 <? concessionsOf user.

Definition isOnCredit (user : option User.t) : bool := concessionsOf user <? 0.

(** [Math.abs(Math.min(user?.concessions || 0, 0))]. *)
Definition creditsUsed (user : option User.t) : Z :=
  Z.abs (Z.min (concessionsOf user) 0).

Definition creditsRemaining (user : option User.t) : Z := 5 - creditsUsed user.


End BookingPage.

Module UserManagement.


End UserManagement.

(** ** The mock's sessions: [mockApi.auth] *)

Module MockAuth.

Record Account := mkAccount
  { id : Z;
    name : string;
    email : string;
    role : string;
    concessions : Z;
    join_date : string }.

(** [users.find(u => u.email === e)]. *)
Definition findByEmail (e : string) (users : list Account) : option Account :=
  List.find (fun u => String.eqb (email u) e) users.

(** [getUserByToken]. *)
Definition getUserByToken (token : string) (users : list Account) : option Account :=
  if String.eqb token "mock-admin-token" then findByEmail "admin@gym.com" users
  else if String.eqb token "mock-user-token" then findByEmail "user@gym.com" users
  else None.

Definition defaultAdmin : Account :=
  {| id := 1; name := "Admin User"; email := "admin@gym.com"; role := "admin";
     concessions := 10; join_date := "2024-01-01" |}.

Definition defaultUser : Account :=
  {| id := 2; name := "Test User"; email := "user@gym.com"; role := "user";
     concessions := 5; join_date := "2024-01-15" |}.

(** [mockApi.auth.login]: the token and the user, or [None] for
    [Error('Invalid credentials')]. *)
Definition login (email password : string) (users : list Account)
  : option (string * Account) :=
  if String.eqb email "admin@gym.com" && String.eqb password "admin123"
  then Some ("mock-admin-token"%string, default defaultAdmin (findByEmail "admin@gym.com" users))
  else if String.eqb email "user@gym.com" && String.eqb password "user123"
  then Some ("mock-user-token"%string, default defaultUser (findByEmail "user@gym.com" users))
  else None.

(** [mockApi.auth.me], for the token in the local storage ([None] when
    there is none): [None] for [Error('Unauthorized')]. *)
Definition me (stored : option string) (users : list Account) : option Account :=
  getUserByToken (default EmptyString stored) users.

Section Register.

(** The text of a number in a template literal, and of an instant as an
    ISO string. *)
Context (numberToString : Z -> string) (toISOString : Z -> string).

(** [mockApi.auth.register] at instant [now]: the new users array, the
    token and the user. *)
Definition register (name email password : string) (now : Z) (users : list Account)
  : list Account * string * Account :=
  let newUser :=
    {| id := now; name := name; email := email; role := "user";
       concessions := 5; join_date := toISOString now |} in
  (users ++ [newUser], ("mock-user-token-" ++ numberToString (id newUser))%string, newUser).

End Register.

End MockAuth.

(** A run of [n] create requests of one user, each accepted by the
    server, from one store to another. *)
Inductive acceptedCreates (userId : Z) : Store -> nat -> Store -> Prop :=
  | accepted_none s : acceptedCreates userId s 0 s
  | accepted_more s now classId bookingDate newId r n s' :
      Server.create now userId classId bookingDate newId s = Ok r ->
      acceptedCreates userId (Server.created_store r) n s' ->
      acceptedCreates userId s (S n) s'.

(** ** The booking window *)



Lemma reachesHandler_dec userId classId s :
  reachesHandler userId classId s \/ ~ reachesHandler userId classId s.
Proof.
  unfold reachesHandler.
  destruct (users s !! userId) as [user|] eqn:Hu;
    [|right; intros (? & ? & _); congruence].
  destruct (User.is_active user) eqn:Ha;
    [|right; intros (? & ? & ? & _); congruence].
  destruct (decide (User.role user = role_user)) as [Hr|Hr];
    [|right; intros (? & ? & ? & ? & _); congruence].
  destruct (Z_le_dec 1 classId);
    [left; by exists user | right; intros (? & ? & ? & ? & ?); lia].
Qed.

Lemma create_reachesHandler now userId classId bookingDate newId s :
  reachesHandler userId classId s ->
  exists user,
    users s !! userId = Some user /\
    Server.create now userId classId bookingDate newId s =
    if negb (isWithinBookingWindow now (Time.midnight bookingDate))
    then Err InvalidBookingDate else
    match classes s !! classId with
    | None => Err NotFound
    | Some classData =>
    if Server.notAvailable classData (Time.isoDate now) then Err ClassNotAvailable else
    if User.concessions user <=? -5 then Err CreditLimitExceeded else
    if existsb (fun b => forUserClassDate userId classId bookingDate b && isConfirmed b)
         (bookings s)
    then Err DuplicateBooking else
    if GymClass.max_capacity classData
       <=? Z.of_nat (countConfirmed classId bookingDate (bookings s))
    then Err ClassFull else
    let nb := Server.newBooking newId userId classId bookingDate now in
    if Server.violatesConstraint nb (bookings s) then Err InternalError else
    Ok {| Server.created_store :=
            {| users := Server.addConcessions userId (-1) (users s);
               classes := classes s;
               bookings := bookings s ++ [nb] |};
          Server.created_booking := nb;
          Server.created_isNegative := User.concessions user - 1 <? 0 |}
    end.
Proof.
  intros (user & Hu & Ha & Hr & Hc). exists user. split; [done|].
  unfold Server.create, Server.authenticateToken, Server.requireRole.
  rewrite Hu, Ha, Hr. rewrite bool_decide_eq_true_2 by done.
  destruct (Z.ltb_spec classId 1); [lia|]. reflexivity.
Qed.

Lemma create_not_reachesHandler now userId classId bookingDate newId s :
  ~ reachesHandler userId classId s ->
  Server.create now userId classId bookingDate newId s = Err Unauthorized
  \/ Server.create now userId classId bookingDate newId s = Err Forbidden
  \/ Server.create now userId classId bookingDate newId s = Err ValidationError.
Proof.
  intros Hn. unfold Server.create, Server.authenticateToken, Server.requireRole.
  destruct (users s !! userId) as [user|] eqn:Hu; [|by left].
  destruct (User.is_active user) eqn:Ha; [|by left].
  case_bool_decide as Hr; [|by right; left].
  destruct (Z.ltb_spec classId 1); [by right; right|].
  exfalso. apply Hn. by exists user.
Qed.

(** Any other outcome of create comes from the handler's own checks. *)
Lemma create_result_reaches now userId classId bookingDate newId s r :
  Server.create now userId classId bookingDate newId s = r ->
  r <> Err Unauthorized -> r <> Err Forbidden -> r <> Err ValidationError ->
  reachesHandler userId classId s.
Proof.
  intros Hc H1 H2 H3. destruct (reachesHandler_dec userId classId s) as [Ha|Hn]; [done|].
  destruct (create_not_reachesHandler now _ _ bookingDate newId _ Hn)
    as [H|[H|H]]; congruence.
Qed.

(** From [Hc : Server.create ... = r], with [r] an acceptance or an error
    of the handler, derive that the request reached the handler. *)
Ltac reaches Hc Ha :=
  match type of Hc with
  | Server.create _ ?u ?c _ _ ?s = _ =>
      assert (Ha : reachesHandler u c s)
        by (by apply (create_result_reaches _ _ _ _ _ _ _ Hc))
  end.


(** ** The cancellation policy *)




(** ** What an accepted request has passed *)

Lemma create_Ok_iff now userId classId bookingDate newId s r :
  Server.create now userId classId bookingDate newId s = Ok r
  <-> reachesHandler userId classId s
      /\ exists user classData,
           createPasses now userId classId bookingDate newId s user classData
           /\ r = createdBy now userId classId bookingDate newId s user.
Proof.
  split.
  - intros Hc. reaches Hc Ha. split; [done|].
    destruct (create_reachesHandler now _ _ bookingDate newId _ Ha) as (user & Hu & Heq).
    rewrite Heq in Hc. clear Heq. exists user.
    destruct (isWithinBookingWindow now (Time.midnight bookingDate)) eqn:Hw;
      [simpl in Hc|discriminate].
    destruct (classes s !! classId) as [classData|] eqn:Hcl; [|discriminate].
    exists classData.
    destruct (Server.notAvailable classData (Time.isoDate now)) eqn:Hav; [discriminate|].
    destruct (Z.leb_spec (User.concessions user) (-5)); [discriminate|].
    destruct (existsb _ (bookings s)) eqn:Hdup; [discriminate|].
    destruct (Z.leb_spec (GymClass.max_capacity classData)
                (Z.of_nat (countConfirmed classId bookingDate (bookings s))));
      [discriminate|].
    cbv zeta in Hc.
    destruct (Server.violatesConstraint _ (bookings s)) eqn:Hcon; [discriminate|].
    injection Hc as <-. split; [by constructor|reflexivity].
  - intros (Ha & user & classData & [Hu Hw Hcl Hav Hcr Hdup Hcap Hcon] & ->).
    destruct (create_reachesHandler now _ _ bookingDate newId _ Ha) as (user' & Hu' & ->).
    assert (user' = user) as -> by congruence.
    rewrite Hw, Hcl, Hav, Hdup. simpl.
    destruct (Z.leb_spec (User.concessions user) (-5)); [lia|].
    destruct (Z.leb_spec (GymClass.max_capacity classData)
                (Z.of_nat (countConfirmed classId bookingDate (bookings s)))); [lia|].
    rewrite Hcon. reflexivity.
Qed.

(** Balances after a relative and after an absolute update. *)
Lemma balance_addConcessions userId d uid s s' :
  users s' = Server.addConcessions userId d (users s) ->
  balance uid s'
  = if decide (uid = userId) then (fun b => b + d) <$> balance uid s
    else balance uid s.
Proof.
  unfold balance, Server.addConcessions. intros ->.
  destruct (decide (uid = userId)) as [->|Hne].
  - rewrite lookup_alter_eq. by destruct (users s !! userId).
  - by rewrite lookup_alter_ne.
Qed.



(** The outcome of the cancel handler, by cases on its early returns. *)
Lemma cancel_cases now requesterId bookingId s :
  Server.cancel now requesterId bookingId s =
  match users s !! requesterId with
  | None => Err Unauthorized
  | Some user =>
    if negb (User.is_active user) then Err Unauthorized else
    match Server.joinedRows bookingId s with
    | [] => Err NotFound
    | (booking, class) :: _ =>
      if negb (bool_decide (User.role user = role_admin))
         && negb (Booking.user_id booking =? requesterId)
      then Err Forbidden
      else if negb (isConfirmed booking) then Err InvalidTransition
      else Ok (cancelledBy now bookingId s booking class)
    end
  end.
Proof.
  unfold Server.cancel, Server.authenticateToken.
  destruct (users s !! requesterId) as [user|]; [|done].
  destruct (User.is_active user); [|done]. simpl.
  destruct (Server.joinedRows bookingId s) as [|[booking class] rest]; done.
Qed.

Lemma cancel_Ok_inv now requesterId bookingId s r :
  Server.cancel now requesterId bookingId s = Ok r ->
  exists user booking class rest,
    users s !! requesterId = Some user
    /\ User.is_active user = true
    /\ Server.joinedRows bookingId s = (booking, class) :: rest
    /\ (User.role user = role_admin \/ Booking.user_id booking = requesterId)
    /\ Booking.status booking = Booking.confirmed
    /\ r = cancelledBy now bookingId s booking class.
Proof.
  rewrite cancel_cases.
  destruct (users s !! requesterId) as [user|]; [|done].
  destruct (User.is_active user) eqn:Ha; [simpl|done].
  destruct (Server.joinedRows bookingId s) as [|[booking class] rest]; [done|].
  destruct (decide (User.role user = role_admin)) as [Hr|Hr].
  - rewrite bool_decide_eq_true_2 by done. simpl.
    unfold isConfirmed. case_bool_decide as Hst; [simpl|done].
    intros [= <-]. exists user, booking, class, rest. tauto.
  - rewrite bool_decide_eq_false_2 by done. simpl.
    destruct (Z.eqb_spec (Booking.user_id booking) requesterId) as [He|He]; [simpl|done].
    unfold isConfirmed. case_bool_decide as Hst; [simpl|done].
    intros [= <-]. exists user, booking, class, rest. tauto.
Qed.


Lemma findIndex_Some {A} (p : A -> bool) (l : list A) i :
  Mock.findIndex p l = Some i ->
  exists x, l !! i = Some x /\ p x = true
            /\ forall j y, (j < i)%nat -> l !! j = Some y -> p y = false.
Proof.
  revert i. induction l as [|a l IH]; intros i; simpl; [done|].
  destruct (p a) eqn:Hp.
  - intros [= <-]. exists a. repeat split; [done|]. intros j y Hj. lia.
  - destruct (Mock.findIndex p l) as [k|]; [|done]. simpl. intros [= <-].
    destruct (IH k eq_refl) as (x & Hx & Hpx & Hlt).
    exists x. repeat split; [done..|].
    intros [|j] y Hj; simpl.
    + by intros [= <-].
    + apply Hlt. lia.
Qed.


Lemma mock_create_Ok_iff now token classId bookingDate s r :
  Mock.create now token classId bookingDate s = Ok r
  <-> exists user gymClass,
        users s !! token = Some user
        /\ -5 < User.concessions user
        /\ classes s !! classId = Some gymClass
        /\ Mock.isClassAvailableForBooking gymClass (Time.isoDate now) = true
        /\ existsb (fun b => forUserClassDate token classId bookingDate b && isConfirmed b)
             (bookings s) = false
        /\ r = mockCreatedBy now token classId bookingDate s user.
Proof.
  unfold Mock.create, Mock.getUserByToken. split.
  - destruct (users s !! token) as [user|]; [|done].
    destruct (Z.leb_spec (User.concessions user) (-5)); [done|].
    destruct (classes s !! classId) as [gymClass|]; [|done].
    destruct (Mock.isClassAvailableForBooking gymClass (Time.isoDate now)) eqn:Hav;
      [simpl|done].
    destruct (existsb _ (bookings s)) eqn:Hdup; [done|].
    intros [= <-]. exists user, gymClass. done.
  - intros (user & gymClass & -> & Hcr & -> & -> & -> & ->).
    destruct (Z.leb_spec (User.concessions user) (-5)); [lia|]. reflexivity.
Qed.

Lemma mock_cancel_Ok_iff now token id s r :
  Mock.cancel now token id s = Ok r
  <-> exists user bookingIndex booking gymClass,
        users s !! token = Some user
        /\ Mock.findIndex (fun b => (Booking.id b =? id) && (Booking.user_id b =? token))
             (bookings s) = Some bookingIndex
        /\ bookings s !! bookingIndex = Some booking
        /\ classes s !! Booking.class_id booking = Some gymClass
        /\ r = mockCancelledBy now token s user bookingIndex booking gymClass.
Proof.
  unfold Mock.cancel, Mock.getUserByToken. split.
  - destruct (users s !! token) as [user|]; [|done].
    destruct (Mock.findIndex _ (bookings s)) as [i|]; [|done].
    destruct (bookings s !! i) as [booking|] eqn:Hb; [|done].
    destruct (classes s !! Booking.class_id booking) as [gymClass|] eqn:Hc; [|done].
    intros [= <-]. by exists user, i, booking, gymClass.
  - intros (user & i & booking & gymClass & -> & -> & -> & -> & ->). reflexivity.
Qed.

(** ** The credit floor *)

Lemma balance_Some userId s user :
  users s !! userId = Some user -> balance userId s = Some (User.concessions user).
Proof. unfold balance. by intros ->. Qed.


Lemma server_create_balance now userId classId bookingDate newId s r :
  Server.create now userId classId bookingDate newId s = Ok r ->
  exists b, balance userId s = Some b /\ -5 < b
            /\ balance userId (Server.created_store r) = Some (b - 1)
            /\ forall uid, uid <> userId ->
                 balance uid (Server.created_store r) = balance uid s.
Proof.
  intros (_ & user & classData & [Hu _ _ _ Hcr _ _ _] & ->)%create_Ok_iff.
  exists (User.concessions user).
  pose proof (balance_Some _ _ _ Hu) as Hb.
  split; [done|]. split; [done|]. split.
  - rewrite (balance_addConcessions userId (-1) userId s) by done.
    rewrite decide_True by done. rewrite Hb. simpl. f_equal; lia.
  - intros uid Hne.
    rewrite (balance_addConcessions userId (-1) uid s) by done.
    by rewrite decide_False.
Qed.








Lemma server_create_creditLimit now userId classId bookingDate newId s :
  Server.create now userId classId bookingDate newId s = Err CreditLimitExceeded
  <-> reachesHandler userId classId s
      /\ isWithinBookingWindow now (Time.midnight bookingDate) = true
      /\ (exists classData, classes s !! classId = Some classData
            /\ Server.notAvailable classData (Time.isoDate now) = false)
      /\ (exists b, balance userId s = Some b /\ b <= -5).
Proof.
  split.
  - intros Hc. reaches Hc Ha. split; [done|].
    destruct (create_reachesHandler now _ _ bookingDate newId _ Ha) as (user & Hu & Heq).
    rewrite Heq in Hc. clear Heq.
    destruct (isWithinBookingWindow now (Time.midnight bookingDate)); [simpl in Hc|done].
    split; [done|].
    destruct (classes s !! classId) as [classData|]; [|done].
    destruct (Server.notAvailable classData (Time.isoDate now)) eqn:Hav; [done|].
    split; [by exists classData|].
    exists (User.concessions user). split; [by apply balance_Some|].
    destruct (Z.leb_spec (User.concessions user) (-5)); [done|].
    revert Hc. cbv zeta. repeat case_match; done.
  - intros (Ha & Hw & (classData & Hcl & Hav) & b & Hb & Hle).
    destruct (create_reachesHandler now _ _ bookingDate newId _ Ha) as (user & Hu & ->).
    rewrite (balance_Some _ _ _ Hu) in Hb. injection Hb as <-.
    rewrite Hw, Hcl, Hav. simpl.
    destruct (Z.leb_spec (User.concessions user) (-5)); [done|lia].
Qed.




(** ** Capacity *)

Lemma forClassDate_set_status classId date st b :
  forClassDate classId date (Booking.set_status st b) = forClassDate classId date b.
Proof. reflexivity. Qed.

Lemma countConfirmed_app classId date bs bs' :
  countConfirmed classId date (bs ++ bs')
  = (countConfirmed classId date bs + countConfirmed classId date bs')%nat.
Proof. unfold countConfirmed. by rewrite List.filter_app, length_app. Qed.

(** A rewriting of the rows that confirms nothing counts no more seats. *)
Lemma countConfirmed_map_le classId date (f : Booking.t -> Booking.t) bs :
  (forall b, seatTaken classId date (f b) = true -> seatTaken classId date b = true) ->
  (countConfirmed classId date (map f bs) <= countConfirmed classId date bs)%nat.
Proof.
  intros Hf. unfold countConfirmed. fold (seatTaken classId date).
  induction bs as [|b bs IH]; simpl; [lia|].
  destruct (seatTaken classId date (f b)) eqn:Hfb.
  - rewrite (Hf b Hfb). simpl. lia.
  - destruct (seatTaken classId date b); simpl; lia.
Qed.

Lemma seatTaken_set_cancelled classId date st now late b :
  st <> Booking.confirmed ->
  seatTaken classId date (Booking.set_cancelled st now late b) = false.
Proof.
  intros Hst. unfold seatTaken, isConfirmed; simpl.
  rewrite bool_decide_eq_false_2 by done. apply andb_false_r.
Qed.

Lemma seatTaken_set_status classId date st b :
  st <> Booking.confirmed ->
  seatTaken classId date (Booking.set_status st b) = false.
Proof.
  intros Hst. unfold seatTaken, isConfirmed; simpl.
  rewrite bool_decide_eq_false_2 by done. apply andb_false_r.
Qed.

Lemma countConfirmed_cancelRows classId date bookingId now isLate bs :
  (countConfirmed classId date (Server.cancelRows bookingId now isLate bs)
   <= countConfirmed classId date bs)%nat.
Proof.
  apply countConfirmed_map_le. intros b.
  destruct (Booking.id b =? bookingId); [|done].
  rewrite seatTaken_set_cancelled; [done|by destruct isLate].
Qed.

Lemma countConfirmed_complete classId date classId' date' bs :
  (countConfirmed classId date
     (fst (Server.transitionRows Booking.confirmed Booking.completed classId' date' bs))
   <= countConfirmed classId date bs)%nat.
Proof.
  apply countConfirmed_map_le. intros b.
  destruct (hit Booking.confirmed classId' date' b); [|done].
  by rewrite seatTaken_set_status.
Qed.

Lemma server_step_capacity s op :
  notUndo op -> capacityOk s -> capacityOk (ServerRun.step s op).
Proof.
  intros Hop Hs. destruct op as [now userId classId bookingDate newId
    | now requesterId bookingId | requesterId classId bookingDate
    | requesterId classId bookingDate]; simpl; [| | |done].
  - destruct (Server.create _ _ _ _ _ s) as [r|] eqn:Hc; [|done].
    apply create_Ok_iff in Hc
      as (_ & user & classData & [_ _ Hcl _ _ _ Hcap _] & ->).
    intros classId' c date Hc'. simpl in Hc' |- *.
    rewrite countConfirmed_app. specialize (Hs classId' c date Hc').
    unfold countConfirmed at 2; simpl. unfold forClassDate at 1; simpl.
    destruct (Z.eqb_spec classId classId') as [<-|Hne]; simpl; [|lia].
    destruct (Z.eqb_spec bookingDate date) as [<-|Hne]; simpl; [|lia].
    assert (c = classData) as -> by congruence. lia.
  - destruct (Server.cancel _ _ _ s) as [r|] eqn:Hc; [|done].
    apply cancel_Ok_inv in Hc
      as (user & booking & class & rest & _ & _ & _ & _ & _ & ->).
    intros classId' c date Hc'. simpl in Hc' |- *.
    specialize (Hs classId' c date Hc').
    pose proof (countConfirmed_cancelRows classId' date bookingId now
      (isLateCancellation now (Booking.booking_date booking) (GymClass.time class))
      (bookings s)). lia.
  - destruct (Server.completeClass _ _ _ s) as [r|] eqn:Hc; [|done].
    revert Hc. unfold Server.completeClass, Server.bulkTransition.
    destruct (Server.authenticateToken requesterId s); [|done].
    destruct (Server.requireRole role_admin a); [|done].
    destruct (classId <? 1); [done|]. intros [= <-].
    intros classId' c date Hc'. simpl in Hc' |- *.
    specialize (Hs classId' c date Hc').
    pose proof (countConfirmed_complete classId' date classId bookingDate (bookings s)).
    simpl in H. lia.
Qed.

Lemma server_run_capacity ops s :
  Forall notUndo ops -> capacityOk s -> capacityOk (ServerRun.run ops s).
Proof.
  revert s. induction ops as [|op ops IH]; intros s Hops Hs; [done|].
  apply Forall_cons in Hops as [Hop Hops].
  simpl. apply IH; [done|]. by apply server_step_capacity.
Qed.

Lemma server_create_classFull now userId classId bookingDate newId s :
  Server.create now userId classId bookingDate newId s = Err ClassFull
  <-> reachesHandler userId classId s
      /\ isWithinBookingWindow now (Time.midnight bookingDate) = true
      /\ (exists b, balance userId s = Some b /\ -5 < b)
      /\ existsb (fun b => forUserClassDate userId classId bookingDate b && isConfirmed b)
           (bookings s) = false
      /\ (exists classData, classes s !! classId = Some classData
            /\ Server.notAvailable classData (Time.isoDate now) = false
            /\ GymClass.max_capacity classData
               <= Z.of_nat (countConfirmed classId bookingDate (bookings s))).
Proof.
  split.
  - intros Hc. reaches Hc Ha. split; [done|].
    destruct (create_reachesHandler now _ _ bookingDate newId _ Ha) as (user & Hu & Heq).
    rewrite Heq in Hc. clear Heq.
    destruct (isWithinBookingWindow now (Time.midnight bookingDate)); [simpl in Hc|done].
    split; [done|].
    destruct (classes s !! classId) as [classData|]; [|done].
    destruct (Server.notAvailable classData (Time.isoDate now)) eqn:Hav; [done|].
    destruct (Z.leb_spec (User.concessions user) (-5)); [done|].
    split; [exists (User.concessions user); by split; [apply balance_Some|]|].
    destruct (existsb _ (bookings s)); [done|]. split; [done|].
    exists classData. split; [done|]. split; [done|].
    destruct (Z.leb_spec (GymClass.max_capacity classData)
                (Z.of_nat (countConfirmed classId bookingDate (bookings s)))); [done|].
    revert Hc. cbv zeta. by case_match.
  - intros (Ha & Hw & (b & Hb & Hgt) & Hdup & classData & Hcl & Hav & Hcap).
    destruct (create_reachesHandler now _ _ bookingDate newId _ Ha) as (user & Hu & ->).
    rewrite (balance_Some _ _ _ Hu) in Hb. injection Hb as <-.
    rewrite Hw, Hcl, Hav, Hdup. simpl.
    destruct (Z.leb_spec (User.concessions user) (-5)); [lia|].
    destruct (Z.leb_spec (GymClass.max_capacity classData)
                (Z.of_nat (countConfirmed classId bookingDate (bookings s)))); [done|lia].
Qed.

Lemma bulkTransition_admin from to requesterId classId date s :
  adminRequest requesterId classId s ->
  Server.bulkTransition from to requesterId classId date s
  = Ok ({| users := users s; classes := classes s;
           bookings := map (fun b => if hit from classId date b
                                     then Booking.set_status to b else b) (bookings s) |},
        Z.of_nat (length (List.filter (hit from classId date) (bookings s)))).
Proof.
  intros (user & Hu & Ha & Hr & Hc).
  unfold Server.bulkTransition, Server.authenticateToken, Server.requireRole.
  rewrite Hu, Ha, Hr. rewrite bool_decide_eq_true_2 by done.
  destruct (Z.ltb_spec classId 1); [lia|].
  unfold Server.transitionRows; simpl. by rewrite length_map.
Qed.

(** Undoing confirms every completed booking of the pair: the count of
    confirmed bookings grows by their number. *)
Lemma countConfirmed_undo classId date bs :
  countConfirmed classId date
    (map (fun b => if hit Booking.completed classId date b
                   then Booking.set_status Booking.confirmed b else b) bs)
  = (countConfirmed classId date bs
     + length (List.filter (hit Booking.completed classId date) bs))%nat.
Proof.
  unfold countConfirmed. fold (seatTaken classId date).
  assert (Hrow : forall b,
    seatTaken classId date
      (if hit Booking.completed classId date b
       then Booking.set_status Booking.confirmed b else b)
    = xorb (seatTaken classId date b) (hit Booking.completed classId date b)).
  { intros b. unfold hit, seatTaken, isConfirmed.
    destruct (forClassDate classId date b) eqn:Hf; simpl; [|by rewrite Hf].
    destruct (Booking.status b) eqn:Hst; simpl;
      rewrite ?forClassDate_set_status, ?Hf, ?Hst; done. }
  assert (Hexcl : forall b,
    seatTaken classId date b && hit Booking.completed classId date b = false).
  { intros b. unfold hit, seatTaken, isConfirmed.
    destruct (forClassDate classId date b); [simpl|done].
    by destruct (Booking.status b). }
  induction bs as [|b bs IH]; [done|]. cbn [map List.filter].
  rewrite Hrow. specialize (Hexcl b).
  destruct (seatTaken classId date b), (hit Booking.completed classId date b);
    try done; cbn [xorb length]; rewrite IH; lia.
Qed.

(** C2, as amended. On the server, along every sequence of create, cancel
    and completeClass requests the number of confirmed bookings of a
    (class, date) pair stays within the capacity of the class; the create
    handler, once it reaches its capacity check, answers ClassFull exactly
    when the count of confirmed bookings of the pair has reached the
    capacity, and accepts only below it. undoCompleteClass is outside this
    bound: it checks no capacity and raises the confirmed count of the pair
    by the number of its completed bookings. *)
Theorem C2_capacity_without_undo (s : Store) (ops : list Op) :
  Forall notUndo ops ->
  capacityOk s ->
  capacityOk (ServerRun.run ops s)
  /\ (forall now userId classId bookingDate newId s',
        (Server.create now userId classId bookingDate newId s' = Err ClassFull
         <-> reachesHandler userId classId s'
             /\ isWithinBookingWindow now (Time.midnight bookingDate) = true
             /\ (exists b, balance userId s' = Some b /\ -5 < b)
             /\ existsb (fun b => forUserClassDate userId classId bookingDate b
                                  && isConfirmed b) (bookings s') = false
             /\ (exists classData, classes s' !! classId = Some classData
                   /\ Server.notAvailable classData (Time.isoDate now) = false
                   /\ GymClass.max_capacity classData
                      <= Z.of_nat (countConfirmed classId bookingDate (bookings s'))))
        /\ (forall r, Server.create now userId classId bookingDate newId s' = Ok r ->
              exists classData, classes s' !! classId = Some classData
                /\ Z.of_nat (countConfirmed classId bookingDate (bookings s'))
                   < GymClass.max_capacity classData))
  /\ (forall requesterId classId date s',
        adminRequest requesterId classId s' ->
        exists s'' updatedCount,
          Server.undoCompleteClass requesterId classId date s' = Ok (s'', updatedCount)
          /\ classes s'' = classes s'
          /\ updatedCount
             = Z.of_nat (length (List.filter (hit Booking.completed classId date)
                                   (bookings s')))
          /\ Z.of_nat (countConfirmed classId date (bookings s''))
             = Z.of_nat (countConfirmed classId date (bookings s')) + updatedCount).
Proof.
  intros Hops Hs. split; [by apply server_run_capacity|]. split.
  - intros now userId classId bookingDate newId s'.
    split; [apply server_create_classFull|].
    intros r (_ & user & classData & [_ _ Hcl _ _ _ Hcap _] & _)%create_Ok_iff.
    by exists classData.
  - intros requesterId classId date s' Hadm. unfold Server.undoCompleteClass.
    rewrite (bulkTransition_admin Booking.completed Booking.confirmed _ _ date _ Hadm).
    eexists _, _. split; [reflexivity|]. split; [done|]. split; [done|].
    cbn [bookings]. rewrite countConfirmed_undo. lia.
Qed.

Lemma capacityOk_oneSeatStore : capacityOk oneSeatStore.
Proof.
  intros classId c date. unfold oneSeatStore; simpl.
  destruct (decide (classId = 1)) as [->|Hne].
  - rewrite lookup_singleton_eq. intros [= <-]. unfold countConfirmed; simpl. lia.
  - by rewrite lookup_singleton_ne.
Qed.

Lemma C2_capacity_without_undo_witness :
  capacityOk oneSeatStore
  /\ capacityOk (ServerRun.run [OpCreate 0 2 1 1 100; OpCreate 0 3 1 1 101;
                                OpCancel 0 2 100; OpCompleteClass 1 1 1]
                   oneSeatStore).
Proof.
  split; [exact capacityOk_oneSeatStore|].
  refine (proj1 (C2_capacity_without_undo oneSeatStore
            [OpCreate 0 2 1 1 100; OpCreate 0 3 1 1 101;
             OpCancel 0 2 100; OpCompleteClass 1 1 1] _ capacityOk_oneSeatStore)).
  repeat constructor.
Defined.

Lemma C2_capacity_counterexample :
  capacityOk oneSeatStore
  /\ (GymClass.max_capacity <$> classes (ServerRun.run overbooking oneSeatStore) !! 1)
     = Some 1
  /\ countConfirmed 1 1 (bookings (ServerRun.run overbooking oneSeatStore)) = 2%nat
  /\ ~ capacityOk (ServerRun.run overbooking oneSeatStore).
Proof.
  split; [exact capacityOk_oneSeatStore|].
  split; [by vm_compute|]. split; [by vm_compute|].
  intros H. specialize (H 1 (openClass 1) 1).
  assert (Hc : classes (ServerRun.run overbooking oneSeatStore) !! 1
               = Some (openClass 1)) by (by vm_compute).
  specialize (H Hc). revert H. by vm_compute.
Qed.

(** ** Cancelling: the server's checks *)

Lemma addConcessions_lookup userId d us uid user :
  us !! uid = Some user ->
  exists user', Server.addConcessions userId d us !! uid = Some user'
                /\ User.role user' = User.role user
                /\ User.is_active user' = User.is_active user.
Proof.
  intros Hu. unfold Server.addConcessions.
  destruct (decide (userId = uid)) as [->|Hne].
  - rewrite lookup_alter_eq, Hu. simpl. by eexists.
  - rewrite lookup_alter_ne by done. by exists user.
Qed.

Lemma joinedRows_cancelRows bookingId now isLate us us' cs bs :
  Server.joinedRows bookingId
    {| users := us'; classes := cs;
       bookings := Server.cancelRows bookingId now isLate bs |}
  = map (fun bc : Booking.t * GymClass.t =>
           (Booking.set_cancelled
              (if isLate then Booking.late_cancelled else Booking.cancelled)
              now isLate (fst bc), snd bc))
      (Server.joinedRows bookingId {| users := us; classes := cs; bookings := bs |}).
Proof.
  unfold Server.joinedRows, Server.cancelRows.
  cbn [users classes bookings].
  induction bs as [|b bs IH]; [done|]. cbn [map omap list_omap].
  destruct (Z.eqb_spec (Booking.id b) bookingId) as [He|He].
  - cbn [Booking.set_cancelled Booking.id Booking.class_id].
    rewrite (proj2 (Z.eqb_eq _ _) He).
    destruct (cs !! Booking.class_id b); cbn [fmap option_fmap option_map map fst snd];
      by rewrite IH.
  - rewrite (proj2 (Z.eqb_neq _ _) He). apply IH.
Qed.

(** On the server a booking, once cancelled, is not cancelled again. *)
Lemma server_cancel_twice now now' requesterId bookingId s r :
  Server.cancel now requesterId bookingId s = Ok r ->
  Server.cancel now' requesterId bookingId (Server.cancelled_store r)
  = Err InvalidTransition.
Proof.
  intros (user & booking & class & rest & Hu & Ha & Hj & Hown & Hst & ->)%cancel_Ok_inv.
  rewrite cancel_cases. unfold cancelledBy; cbv zeta; simpl.
  set (isLate := isLateCancellation now (Booking.booking_date booking)
                   (GymClass.time class)).
  assert (Hu' : exists user',
    (if negb isLate && Booking.used_concession booking
     then Server.addConcessions (Booking.user_id booking) 1 (users s)
     else users s) !! requesterId = Some user'
    /\ User.role user' = User.role user
    /\ User.is_active user' = User.is_active user).
  { destruct (negb isLate && _); [by apply addConcessions_lookup|by exists user]. }
  destruct Hu' as (user' & -> & Hr' & Ha'). rewrite Ha', Ha. simpl.
  rewrite (joinedRows_cancelRows bookingId now isLate (users s) _ (classes s) (bookings s)).
  replace {| users := users s; classes := classes s; bookings := bookings s |}
    with s by (by destruct s).
  rewrite Hj. simpl. rewrite Hr'.
  assert (negb (bool_decide (User.role user = role_admin))
          && negb (Booking.user_id booking =? requesterId) = false) as ->.
  { destruct Hown as [Hadm| ->].
    - by rewrite bool_decide_eq_true_2.
    - rewrite Z.eqb_refl. apply andb_false_r. }
  unfold isConfirmed; simpl. by destruct isLate.
Qed.

(** The three refusals of the cancel handler, for an authenticated
    requester. *)
Lemma server_cancel_refusals now requesterId bookingId s user :
  users s !! requesterId = Some user ->
  User.is_active user = true ->
  (Server.joinedRows bookingId s = [] ->
     Server.cancel now requesterId bookingId s = Err NotFound)
  /\ (forall booking class rest,
        Server.joinedRows bookingId s = (booking, class) :: rest ->
        User.role user <> role_admin ->
        Booking.user_id booking <> requesterId ->
        Server.cancel now requesterId bookingId s = Err Forbidden)
  /\ (forall booking class rest,
        Server.joinedRows bookingId s = (booking, class) :: rest ->
        User.role user = role_admin \/ Booking.user_id booking = requesterId ->
        Booking.status booking <> Booking.confirmed ->
        Server.cancel now requesterId bookingId s = Err InvalidTransition).
Proof.
  intros Hu Ha. rewrite cancel_cases, Hu, Ha. simpl. split; [by intros ->|]. split.
  - intros booking class rest -> Hr Hown.
    rewrite bool_decide_eq_false_2 by done.
    by destruct (Z.eqb_spec (Booking.user_id booking) requesterId).
  - intros booking class rest -> Hown Hst.
    assert (negb (bool_decide (User.role user = role_admin))
            && negb (Booking.user_id booking =? requesterId) = false) as ->.
    { destruct Hown as [Hadm|Hown].
      - by rewrite bool_decide_eq_true_2.
      - rewrite Hown, Z.eqb_refl. apply andb_false_r. }
    unfold isConfirmed. by rewrite bool_decide_eq_false_2.
Qed.

(** C5. The mock cancels a booking whatever its status: the owner who
    cancels the same booking twice, early, is refunded twice (4, 5, 6),
    where the server answers the second request with InvalidTransition and
    leaves the balance at 5. A member who is not the owner is answered
    NotFound by the mock, Forbidden by the server. *)
Theorem C5_mock_cancel_twice_refunds_twice :
  balance 2 bookedStore = Some 4
  /\ mockRefunded (Mock.cancel 0 2 100 bookedStore) = Ok true
  /\ mockRefunded (Mock.cancel 1 2 100 (MockRun.run [OpCancel 0 2 100] bookedStore))
     = Ok true
  /\ balance 2 (MockRun.run [OpCancel 0 2 100; OpCancel 1 2 100] bookedStore) = Some 6
  /\ serverRefunded (Server.cancel 0 2 100 bookedStore) = Ok true
  /\ serverRefunded
       (Server.cancel 1 2 100 (ServerRun.run [OpCancel 0 2 100] bookedStore))
     = Err InvalidTransition
  /\ balance 2 (ServerRun.run [OpCancel 0 2 100; OpCancel 1 2 100] bookedStore) = Some 5
  /\ mockRefunded (Mock.cancel 0 3 100 bookedStore) = Err NotFound
  /\ serverRefunded (Server.cancel 0 3 100 bookedStore) = Err Forbidden.
Proof. repeat split; by vm_compute. Qed.

(** ** Cancelling: status, flag and refund *)












(** ** Availability of a class *)

Lemma mock_available_iff c today :
  Mock.isClassAvailableForBooking c today = true <-> published_or_due c today.
Proof.
  unfold Mock.isClassAvailableForBooking, published_or_due.
  destruct (GymClass.status c); split; try done; try (by left);
    try (by intros [?|[? _]]).
  - destruct (GymClass.publish_date c) as [p|]; [|done].
    intros Hle%Z.leb_le. right. split; [done|]. by exists p.
  - intros [?|[_ (p & -> & Hle)]]; [done|]. by apply Z.leb_le.
Qed.







(** ** Completing a class and undoing it *)

(** The rows a bulk transition rewrites are as many as it reports. *)
Lemma transitioned_count from to classId date bs :
  from <> to ->
  length (List.filter (fun b => bool_decide
            ((if hit from classId date b then Booking.set_status to b else b) <> b)) bs)
  = length (List.filter (hit from classId date) bs).
Proof.
  intros Hne. induction bs as [|b bs IH]; [done|]. simpl.
  destruct (hit from classId date b) eqn:Hh.
  - rewrite bool_decide_eq_true_2; [simpl; by rewrite IH|].
    apply andb_true_iff in Hh as [_ Hst%bool_decide_eq_true].
    intros Heq. apply (f_equal Booking.status) in Heq. simpl in Heq. congruence.
  - rewrite bool_decide_eq_false_2 by (by intros ?). exact IH.
Qed.

(** On the server, undoing after completing gives back every booking the
    completion had turned. *)
Lemma server_undo_complete_row classId date b :
  hit Booking.confirmed classId date b = true ->
  let b1 := Booking.set_status Booking.completed b in
  hit Booking.completed classId date b1 = true
  /\ Booking.set_status Booking.confirmed b1 = b.
Proof.
  intros [Hf Hst%bool_decide_eq_true]%andb_true_iff. cbv zeta. split.
  - unfold hit, forClassDate in *. simpl. by rewrite Hf.
  - destruct b; simpl in *. by subst.
Qed.

(** On the server completeClass turns the confirmed bookings of the pair
    and no other row, leaves users and classes alone and reports the number
    of rows it turned; undoCompleteClass afterwards gives each of them
    back. *)
Lemma server_complete_then_undo requesterId classId date s :
  adminRequest requesterId classId s ->
  let complete b := if hit Booking.confirmed classId date b
                    then Booking.set_status Booking.completed b else b in
  let undo b := if hit Booking.completed classId date b
                then Booking.set_status Booking.confirmed b else b in
  let s1 := {| users := users s; classes := classes s;
               bookings := map complete (bookings s) |} in
  Server.completeClass requesterId classId date s
  = Ok (s1, Z.of_nat (countConfirmed classId date (bookings s)))
  /\ length (List.filter (fun b => bool_decide (complete b <> b)) (bookings s))
     = countConfirmed classId date (bookings s)
  /\ Server.undoCompleteClass requesterId classId date s1
     = Ok ({| users := users s; classes := classes s;
              bookings := map undo (map complete (bookings s)) |},
           Z.of_nat (length (List.filter (hit Booking.completed classId date)
                               (map complete (bookings s)))))
  /\ (forall i b, bookings s !! i = Some b ->
        hit Booking.confirmed classId date b = true ->
        map undo (map complete (bookings s)) !! i = Some b).
Proof.
  intros Hadm. cbv zeta. split; [|split; [|split]].
  - unfold Server.completeClass.
    by rewrite (bulkTransition_admin Booking.confirmed Booking.completed _ _ date _ Hadm).
  - by apply (transitioned_count Booking.confirmed Booking.completed).
  - unfold Server.undoCompleteClass.
    rewrite (bulkTransition_admin Booking.completed Booking.confirmed requesterId
               classId date); [done|].
    destruct Hadm as (user & ?). by exists user.
  - intros i b Hb Hh.
    change (@map Booking.t Booking.t) with (@fmap list _ Booking.t Booking.t).
    rewrite !list_lookup_fmap, Hb. simpl. rewrite Hh.
    destruct (server_undo_complete_row classId date b Hh) as [-> ->]. done.
Qed.

(** The number the mock reports: every row of the pair, whatever its
    status. *)
Lemma mock_transition_count from to classId date s :
  snd (Mock.transition from to classId date s)
  = Z.of_nat (length (List.filter (forClassDate classId date) (bookings s))).
Proof.
  unfold Mock.transition. cbn [snd bookings]. apply (f_equal Z.of_nat).
  induction (bookings s) as [|b bs IH]; [done|]. cbn [map List.filter].
  assert (Hsame : forClassDate classId date
            (if hit from classId date b then Booking.set_status to b else b)
          = forClassDate classId date b).
  { destruct (hit from classId date b); [apply forClassDate_set_status|done]. }
  rewrite Hsame. destruct (forClassDate classId date b); cbn [length]; by rewrite IH.
Qed.

(** C8. With one confirmed and one cancelled booking of the pair, the
    mock's completeClass turns the one confirmed booking and reports 2, the
    number of rows of the pair; the server turns the same booking and
    reports 1. The same holds of undoCompleteClass afterwards. *)
Theorem C8_mock_reports_rows_of_pair :
  let turned := [ Booking.set_status Booking.completed (Server.newBooking 100 2 1 10 0);
                  Booking.set_cancelled Booking.cancelled 5 false
                    (Server.newBooking 101 3 1 10 0) ] in
  bookings (fst (Mock.completeClass 1 10 classDay)) = turned
  /\ snd (Mock.completeClass 1 10 classDay) = 2
  /\ serverBookings (Server.completeClass 1 1 10 classDay) = Ok turned
  /\ serverCount (Server.completeClass 1 1 10 classDay) = Ok 1
  /\ bookings (fst (Mock.undoCompleteClass 1 10 (fst (Mock.completeClass 1 10 classDay))))
     = bookings classDay
  /\ snd (Mock.undoCompleteClass 1 10 (fst (Mock.completeClass 1 10 classDay))) = 2
  /\ serverCount (Server.undoCompleteClass 1 1 10
                    (ServerRun.run [OpCompleteClass 1 1 10] classDay)) = Ok 1
  /\ bookings (ServerRun.run [OpCompleteClass 1 1 10; OpUndoCompleteClass 1 1 10] classDay)
     = bookings classDay.
Proof. cbv zeta. repeat split; by vm_compute. Qed.

(** ** The mock against the server *)








(** ** The administrator's balance update *)



(** * Further properties of the code *)

(** ** The booking window on instants *)

(** [isWithinBookingWindow] accepts exactly the instants later than 24
    hours before the request and at most 14 days after it: a requested
    date-time in the past is accepted when it is less than a day old. *)
Theorem window_on_instants (now booking : Z) :
  (isWithinBookingWindow now booking = true
   <-> - Time.msPerDay < booking - now <= 14 * Time.msPerDay)
  /\ isWithinBookingWindow now (now - (Time.msPerDay - 1)) = true
  /\ isWithinBookingWindow now (now - Time.msPerDay) = false
  /\ isWithinBookingWindow now (now + 14 * Time.msPerDay + 1) = false.
Proof.
  assert (H : forall t, isWithinBookingWindow now t = true
                        <-> - Time.msPerDay < t - now <= 14 * Time.msPerDay).
  { intros t. unfold isWithinBookingWindow, Time.ceil_div; cbv zeta.
    rewrite andb_true_iff, !Z.leb_le.
    assert (Hd : Time.msPerDay = 86400000) by reflexivity. rewrite !Hd.
    pose proof (Z.div_mod (- (t - now)) 86400000 ltac:(lia)) as Hdm.
    pose proof (Z.mod_pos_bound (- (t - now)) 86400000 ltac:(lia)) as Hm.
    lia. }
  split; [apply H|]. split; [apply H; unfold Time.msPerDay; lia|].
  split; apply not_true_iff_false; rewrite H; unfold Time.msPerDay; lia.
Qed.

(** ** The booking page *)




Lemma acceptedCreates_balance userId s n s' c :
  balance userId s = Some c ->
  acceptedCreates userId s n s' ->
  balance userId s' = Some (c - Z.of_nat n) /\ (-5 <= c -> -5 <= c - Z.of_nat n).
Proof.
  intros Hc Hacc. revert c Hc.
  induction Hacc as [s|s now classId bookingDate newId r n s' Hcr Hacc IH]; intros c Hc.
  - split; [rewrite Hc; f_equal; lia|lia].
  - apply server_create_balance in Hcr as (b & Hb & Hgt & Hb' & _).
    assert (b = c) as -> by congruence.
    destruct (IH (c - 1) Hb') as [Hbal Hfloor]. split.
    + rewrite Hbal. f_equal; lia.
    + intros _. assert (-5 <= c - 1) by lia. specialize (Hfloor H). lia.
Qed.

(** The page's [canBook] flag is the server's credit check: a create the
    server accepts has it set, and a create refused with
    CreditLimitExceeded has it unset. The early return of
    [handleBookClass] is one off: at a balance of exactly -5 it lets the
    request go, and the server refuses it. For a user on credit, between -5
    and 0, [creditsRemaining] is the balance plus 5, and no run of accepted
    create requests of that user is longer. *)
Theorem bookingPage_credit_guard (userId : Z) (s : Store) (user : User.t) :
  users s !! userId = Some user ->
  (forall now classId bookingDate newId r,
     Server.create now userId classId bookingDate newId s = Ok r ->
     BookingPage.canBook (Some user) = true)
  /\ (forall now classId bookingDate newId,
        Server.create now userId classId bookingDate newId s = Err CreditLimitExceeded ->
        BookingPage.canBook (Some user) = false)
  /\ (User.concessions user = -5 ->
        BookingPage.handlerBlocks (Some user) = false
        /\ forall now classId bookingDate newId,
             exists e, Server.create now userId classId bookingDate newId s = Err e)
  /\ (-5 <= User.concessions user <= 0 ->
        BookingPage.creditsRemaining (Some user) = User.concessions user + 5
        /\ forall n s', acceptedCreates userId s n s' ->
             Z.of_nat n <= BookingPage.creditsRemaining (Some user)).
Proof.
  intros Hu. pose proof (balance_Some _ _ _ Hu) as Hb.
  unfold BookingPage.canBook, BookingPage.handlerBlocks, BookingPage.creditsRemaining,
    BookingPage.creditsUsed, BookingPage.concessionsOf.
  split; [|split; [|split]].
  - intros now classId bookingDate newId r (b & Hb' & Hgt & _)%server_create_balance.
    assert (b = User.concessions user) as -> by congruence. by apply Z.ltb_lt.
  - intros now classId bookingDate newId
      (_ & _ & _ & b & Hb' & Hle)%server_create_creditLimit.
    assert (b = User.concessions user) as -> by congruence. by apply Z.ltb_ge.
  - intros Hc. split; [apply Z.ltb_ge; lia|].
    intros now classId bookingDate newId.
    destruct (Server.create now userId classId bookingDate newId s) as [r|e] eqn:Hcr;
      [|by exists e].
    apply server_create_balance in Hcr as (b & Hb' & Hgt & _).
    assert (b = User.concessions user) by congruence. lia.
  - intros Hc. split; [lia|]. intros n s' Hacc.
    destruct (acceptedCreates_balance _ _ _ _ _ Hb Hacc) as [_ Hfloor]. lia.
Qed.

Lemma bookingPage_credit_guard_witness :
  users flooredStore !! 2 = Some (member (-5))
  /\ BookingPage.handlerBlocks (Some (member (-5))) = false
  /\ exists e, Server.create 0 2 1 1 100 flooredStore = Err e.
Proof.
  assert (Hu : users flooredStore !! 2 = Some (member (-5))) by done.
  split; [exact Hu|].
  destruct (proj1 (proj2 (proj2 (bookingPage_credit_guard 2 flooredStore _ Hu))) eq_refl)
    as [Hblock Hrefuse].
  split; [exact Hblock|]. exact (Hrefuse 0 1 1 100).
Defined.

(** ** The user-management page *)



(** ** Sessions of the mock *)

Lemma register_token_unknown (text : string) (users : list MockAuth.Account) :
  MockAuth.getUserByToken ("mock-user-token-" ++ text)%string users = None.
Proof. reflexivity. Qed.

(** An account registered in the mock cannot be used: the token that
    [register] returns is resolved to no user, whatever the users array, so
    [me] throws Unauthorized for it; and once the token is gone, [login]
    accepts the new account's credentials only if they are one of the two
    built-in pairs. The account itself is stored. *)
Theorem mock_register_token_never_resolves
  (numberToString toISOString : Z -> string) (name email password : string) (now : Z)
  (users : list MockAuth.Account) :
  let result := MockAuth.register numberToString toISOString name email password now users in
  let users1 := fst (fst result) in
  let token := snd (fst result) in
  let newUser := snd result in
  In newUser users1
  /\ MockAuth.email newUser = email
  /\ (forall users', MockAuth.getUserByToken token users' = None)
  /\ (forall users', MockAuth.me (Some token) users' = None)
  /\ (forall users', (email, password) <> ("admin@gym.com", "admin123")%string ->
        (email, password) <> ("user@gym.com", "user123")%string ->
        MockAuth.login email password users' = None).
Proof.
  cbv zeta. unfold MockAuth.register; simpl.
  split; [apply in_or_app; right; by left|]. split; [done|].
  split; [intros users'; apply register_token_unknown|].
  split; [intros users'; apply register_token_unknown|].
  intros users' Hadm Husr. unfold MockAuth.login.
  destruct (String.eqb_spec email "admin@gym.com") as [->|He1]; simpl.
  - destruct (String.eqb_spec password "admin123") as [->|Hp]; [done|]. simpl.
    reflexivity.
  - destruct (String.eqb_spec email "user@gym.com") as [->|He2]; simpl; [|done].
    destruct (String.eqb_spec password "user123") as [->|Hp]; [done|]. reflexivity.
Qed.

Lemma mock_register_token_never_resolves_witness :
  (("new@gym.com", "pw") <> ("admin@gym.com", "admin123"))%string
  /\ (("new@gym.com", "pw") <> ("user@gym.com", "user123"))%string
  /\ MockAuth.login "new@gym.com" "pw"
       (fst (fst (MockAuth.register (fun _ => "7"%string) (fun _ => "1970"%string)
                    "New" "new@gym.com" "pw" 7 [MockAuth.defaultAdmin])))
     = None.
Proof.
  assert (H1 : (("new@gym.com", "pw") <> ("admin@gym.com", "admin123"))%string)
    by discriminate.
  assert (H2 : (("new@gym.com", "pw") <> ("user@gym.com", "user123"))%string)
    by discriminate.
  split; [exact H1|]. split; [exact H2|].
  exact (proj2 (proj2 (proj2 (proj2
    (mock_register_token_never_resolves (fun _ => "7"%string) (fun _ => "1970"%string)
       "New" "new@gym.com" "pw" 7 [MockAuth.defaultAdmin]))))
    _ H1 H2).
Defined.

(** After a successful [login], [me] with the returned token gives the user
    that [login] returned when the users array holds an account with the
    login's email; when it holds none, [login] still succeeds, with a
    built-in account, and [me] throws Unauthorized. *)
Theorem mock_login_then_me (email password token : string) (user : MockAuth.Account)
  (users : list MockAuth.Account) :
  MockAuth.login email password users = Some (token, user) ->
  (is_Some (MockAuth.findByEmail email users) ->
     MockAuth.me (Some token) users = Some user
     /\ MockAuth.email user = email)
  /\ (MockAuth.findByEmail email users = None ->
        MockAuth.me (Some token) users = None).
Proof.
  unfold MockAuth.login, MockAuth.me, MockAuth.getUserByToken.
  destruct (String.eqb_spec email "admin@gym.com") as [->|He1]; simpl.
  - destruct (String.eqb password "admin123"); simpl; [|done].
    intros [= <- <-]. simpl. split.
    + intros [u Hu]. rewrite Hu. simpl. split; [done|].
      apply find_some in Hu as [_ He]. by apply String.eqb_eq in He.
    + by intros ->.
  - destruct (String.eqb_spec email "user@gym.com") as [->|He2]; simpl; [|done].
    destruct (String.eqb password "user123"); simpl; [|done].
    intros [= <- <-]. simpl. split.
    + intros [u Hu]. rewrite Hu. simpl. split; [done|].
      apply find_some in Hu as [_ He]. by apply String.eqb_eq in He.
    + by intros ->.
Qed.

Lemma mock_login_then_me_witness :
  MockAuth.login "user@gym.com" "user123" [MockAuth.defaultAdmin; MockAuth.defaultUser]
  = Some ("mock-user-token"%string, MockAuth.defaultUser)
  /\ MockAuth.me (Some "mock-user-token"%string)
       [MockAuth.defaultAdmin; MockAuth.defaultUser]
     = Some MockAuth.defaultUser.
Proof.
  assert (Hl : MockAuth.login "user@gym.com" "user123"
                 [MockAuth.defaultAdmin; MockAuth.defaultUser]
               = Some ("mock-user-token"%string, MockAuth.defaultUser)) by reflexivity.
  split; [exact Hl|].
  apply (proj1 (mock_login_then_me _ _ _ _ _ Hl)). by eexists.
Defined.

(** ** Deactivating an account *)

Lemma toggleActive_admin requesterId userId s row :
  activeAdmin requesterId s ->
  users s !! userId = Some row ->
  Users.toggleActive requesterId userId s
  = Ok ({| users := <[userId := {| User.role := User.role row;
                                  User.concessions := User.concessions row;
                                  User.is_active := negb (User.is_active row) |}]>
                      (users s);
           classes := classes s; bookings := bookings s |},
        {| User.role := User.role row; User.concessions := User.concessions row;
           User.is_active := negb (User.is_active row) |}).
Proof.
  intros (user & Hu & Ha & Hr) Hrow.
  unfold Users.toggleActive, Server.authenticateToken, Server.requireRole.
  rewrite Hu, Ha, Hr, Hrow. by rewrite bool_decide_eq_true_2.
Qed.

(** Deactivating an active account leaves its balance and every booking
    (so every seat it holds) as they were, and from then on each create or
    cancel request of that account is answered Unauthorized. An
    administrator who deactivates somebody else undoes it with a second
    request, which gives back the store as it was; one who deactivates
    their own account is locked out of the operation that would undo it. *)
Theorem toggleActive_locks_account_out (requesterId userId : Z) (s : Store) (row : User.t) :
  activeAdmin requesterId s ->
  users s !! userId = Some row ->
  User.is_active row = true ->
  exists s' row',
    Users.toggleActive requesterId userId s = Ok (s', row')
    /\ User.is_active row' = false
    /\ bookings s' = bookings s
    /\ balance userId s' = balance userId s
    /\ (forall now classId bookingDate newId,
          Server.create now userId classId bookingDate newId s' = Err Unauthorized)
    /\ (forall now bookingId, Server.cancel now userId bookingId s' = Err Unauthorized)
    /\ (requesterId <> userId ->
          exists row'', Users.toggleActive requesterId userId s' = Ok (s, row''))
    /\ (requesterId = userId ->
          forall target, Users.toggleActive requesterId target s' = Err Unauthorized).
Proof.
  intros Hadm Hrow Hact. rewrite (toggleActive_admin _ _ _ _ Hadm Hrow).
  eexists _, _. split; [reflexivity|]. rewrite Hact. simpl.
  split; [done|]. split; [done|].
  split; [unfold balance; simpl; by rewrite lookup_insert_eq, Hrow|].
  split; [|split; [|split]].
  - intros now classId bookingDate newId.
    unfold Server.create, Server.authenticateToken; simpl.
    by rewrite lookup_insert_eq.
  - intros now bookingId. unfold Server.cancel, Server.authenticateToken; simpl.
    by rewrite lookup_insert_eq.
  - intros Hne. destruct Hadm as (user & Hu & Ha & Hr).
    eexists. rewrite (toggleActive_admin requesterId userId _
      {| User.role := User.role row; User.concessions := User.concessions row;
         User.is_active := false |}).
    + simpl. rewrite insert_insert_eq. rewrite insert_id; [by destruct s|].
      rewrite Hrow. destruct row; simpl in *. by subst.
    + exists user. simpl. by rewrite lookup_insert_ne.
    + simpl. by rewrite lookup_insert_eq.
  - intros -> target. unfold Users.toggleActive, Server.authenticateToken; simpl.
    by rewrite lookup_insert_eq.
Qed.

Lemma toggleActive_locks_account_out_witness :
  activeAdmin 1 bookedStore
  /\ users bookedStore !! 2 = Some (member 4)
  /\ exists s' row',
       Users.toggleActive 1 2 bookedStore = Ok (s', row')
       /\ Server.cancel 0 2 100 s' = Err Unauthorized.
Proof.
  assert (Hadm : activeAdmin 1 bookedStore) by (by exists admin).
  assert (Hrow : users bookedStore !! 2 = Some (member 4)) by done.
  split; [exact Hadm|]. split; [exact Hrow|].
  destruct (toggleActive_locks_account_out 1 2 bookedStore _ Hadm Hrow eq_refl)
    as (s' & row' & Ht & _ & _ & _ & _ & Hcancel & _).
  exists s', row'. split; [exact Ht|]. apply Hcancel.
Defined.

(** ** The administrator's view of a user *)

Lemma leftJoin_length {A} (l : list A) :
  length (Users.leftJoin l) = Nat.max 1 (length l).
Proof. destruct l; simpl; [done|]. by rewrite length_map. Qed.

Lemma filter_map_Some {A} (p : A -> bool) (k : list A) :
  List.filter (fun o => match o with Some a => p a | None => false end) (map Some k)
  = map Some (List.filter p k).
Proof. induction k as [|a k IH]; [done|]. simpl. destruct (p a); simpl; by rewrite IH. Qed.

Lemma leftJoin_count {A} (p : A -> bool) (l : list A) :
  length (List.filter (fun o => match o with Some a => p a | None => false end)
            (Users.leftJoin l))
  = length (List.filter p l).
Proof.
  destruct l as [|a l]; [done|]. unfold Users.leftJoin.
  by rewrite filter_map_Some, length_map.
Qed.

Lemma leftJoin_count_Some {A} (l : list A) :
  length (List.filter (fun o : option A => bool_decide (is_Some o)) (Users.leftJoin l))
  = length l.
Proof.
  destruct l as [|a l]; [done|]. unfold Users.leftJoin.
  generalize (a :: l). intros k. induction k as [|x k IH]; [done|].
  cbn [map List.filter]. rewrite bool_decide_eq_true_2 by (by eexists).
  cbn [length]. by rewrite IH.
Qed.

Lemma product_count_snd {A B} (q : B -> bool) (ns : list A) (bs : list B) :
  length (List.filter (fun r => q (snd r))
            (flat_map (fun n => map (fun b => (n, b)) bs) ns))
  = (length ns * length (List.filter q bs))%nat.
Proof.
  induction ns as [|n ns IH]; [done|]. simpl.
  rewrite List.filter_app, length_app, IH. f_equal.
  clear IH. induction bs as [|b bs IH]; [done|]. simpl.
  destruct (q b); simpl; by rewrite IH.
Qed.

Lemma product_count_fst {A B} (q : A -> bool) (ns : list A) (bs : list B) :
  length (List.filter (fun r => q (fst r))
            (flat_map (fun n => map (fun b => (n, b)) bs) ns))
  = (length (List.filter q ns) * length bs)%nat.
Proof.
  induction ns as [|n ns IH]; [done|]. simpl.
  rewrite List.filter_app, length_app, IH.
  assert (H : length (List.filter (fun r : A * B => q (fst r)) (map (fun b => (n, b)) bs))
              = if q n then length bs else 0%nat).
  { clear IH. induction bs as [|b bs IH]; simpl; [by destruct (q n)|].
    destruct (q n); simpl; by rewrite ?IH. }
  rewrite H. destruct (q n); simpl; lia.
Qed.

Lemma countOf_bookingsOf userId p s :
  Users.countOf userId p s = Z.of_nat (length (List.filter p (bookingsOf userId s))).
Proof.
  unfold Users.countOf, bookingsOf. f_equal. f_equal.
  induction (bookings s) as [|b bs IH]; [done|]. simpl.
  destruct (Booking.user_id b =? userId); simpl; [|done].
  destruct (p b); simpl; by rewrite IH.
Qed.

Lemma countStatus_joined {Note} (note_user_id : Note -> Z) st userId notes s :
  Users.countStatus st (Users.joinedUserRows note_user_id userId notes s)
  = Z.of_nat (length (List.filter (hitStatus st) (bookingsOf userId s)))
    * Z.max 1 (Z.of_nat (length (notesOf note_user_id userId notes))).
Proof.
  unfold Users.countStatus, Users.joinedUserRows.
  fold (notesOf note_user_id userId notes). fold (bookingsOf userId s).
  rewrite (product_count_snd
    (fun o : option Booking.t =>
       match o with
       | Some b => bool_decide (Booking.status b = st)
       | None => false
       end)).
  rewrite leftJoin_length.
  rewrite (leftJoin_count (hitStatus st)). lia.
Qed.

(** The two joins of the user query multiply its counts: a user with N
    notes and B bookings, C of them with the status counted, is reported
    with a note count of N times B (N when B is 0) and a status count of C
    times N (C when N is 0). The statistics query counts each table on its
    own and reports N and C. *)
Theorem getUser_counts_multiply {Note : Type} (note_user_id : Note -> Z)
  (now requesterId userId : Z) (notes : list Note) (s : Store) (row : User.t) :
  activeAdmin requesterId s ->
  users s !! userId = Some row ->
  exists summary st,
    Users.getUser note_user_id requesterId userId notes s = Ok summary
    /\ Users.stats note_user_id now requesterId userId notes s = Ok st
    /\ Users.summary_user summary = row
    /\ Users.stats_note_count st = Z.of_nat (length (notesOf note_user_id userId notes))
    /\ Users.note_count summary
       = Users.stats_note_count st
         * Z.max 1 (Z.of_nat (length (bookingsOf userId s)))
    /\ Users.active_bookings summary
       = Users.confirmed_bookings st * Z.max 1 (Users.stats_note_count st)
    /\ Users.completed_classes summary
       = Users.stats_completed_classes st * Z.max 1 (Users.stats_note_count st).
Proof.
  intros (user & Hu & Ha & Hr) Hrow.
  unfold Users.getUser, Users.stats, Server.authenticateToken, Server.requireRole.
  rewrite Hu, Ha, Hr, Hrow. rewrite bool_decide_eq_true_2 by done.
  eexists _, _. split; [reflexivity|]. split; [reflexivity|].
  cbn [Users.summary_user Users.stats_note_count Users.note_count Users.active_bookings
       Users.completed_classes Users.confirmed_bookings Users.stats_completed_classes].
  split; [done|]. split; [done|].
  rewrite !countStatus_joined, !countOf_bookingsOf.
  fold (notesOf note_user_id userId notes).
  split; [|done].
  unfold Users.joinedUserRows.
  fold (notesOf note_user_id userId notes). fold (bookingsOf userId s).
  etransitivity.
  { apply (f_equal Z.of_nat).
    exact (product_count_fst (fun o : option Note => bool_decide (is_Some o))
             (Users.leftJoin (notesOf note_user_id userId notes))
             (Users.leftJoin (bookingsOf userId s))). }
  rewrite leftJoin_length, leftJoin_count_Some. lia.
Qed.

Lemma getUser_counts_multiply_witness :
  exists summary,
    Users.getUser (fun n : Z => n) 1 2 [2; 2; 3] threeBookingsStore = Ok summary
    /\ Users.note_count summary = 6
    /\ Users.active_bookings summary = 2.
Proof.
  assert (Hadm : activeAdmin 1 threeBookingsStore) by (by exists admin).
  destruct (getUser_counts_multiply (fun n : Z => n) 0 1 2 [2; 2; 3] threeBookingsStore
              (member 3) Hadm eq_refl)
    as (summary & st & Hg & Hs & _ & Hn & Hnc & Hab & _).
  exists summary. split; [exact Hg|].
  injection Hs as <-. split; [exact Hnc | exact Hab].
Defined.

Lemma filter_cons_length {A} (p : A -> bool) (a : A) (l : list A) :
  length (List.filter p (a :: l))
  = ((if p a then 1 else 0) + length (List.filter p l))%nat.
Proof. simpl. by destruct (p a). Qed.

Lemma status_partition (l : list Booking.t) :
  (length (List.filter (hitStatus Booking.confirmed) l)
   + length (List.filter (hitStatus Booking.completed) l)
   + length (List.filter (hitStatus Booking.cancelled) l)
   + length (List.filter (hitStatus Booking.late_cancelled) l))%nat
  = length l.
Proof.
  induction l as [|b l IH]; [done|]. rewrite !filter_cons_length.
  assert (H : ((if hitStatus Booking.confirmed b then 1 else 0)
               + (if hitStatus Booking.completed b then 1 else 0)
               + (if hitStatus Booking.cancelled b then 1 else 0)
               + (if hitStatus Booking.late_cancelled b then 1 else 0))%nat = 1%nat).
  { unfold hitStatus. by destruct (Booking.status b). }
  cbn [length]. lia.
Qed.

Lemma filter_length_le' {A} (p : A -> bool) (l : list A) :
  (length (List.filter p l) <= length l)%nat.
Proof. induction l as [|a l IH]; simpl; [lia|]. destruct (p a); simpl; lia. Qed.

Lemma filter_and_length_le {A} (p q : A -> bool) (l : list A) :
  (length (List.filter (fun a => p a && q a) l) <= length (List.filter p l))%nat.
Proof.
  induction l as [|a l IH]; simpl; [lia|].
  destruct (p a), (q a); simpl; lia.
Qed.

Lemma filter_all {A} (p : A -> bool) (l : list A) :
  Forall (fun a => p a = true) l -> List.filter p l = l.
Proof.
  induction 1 as [|a l Ha _ IH]; [done|]. simpl. by rewrite Ha, IH.
Qed.

(** The statistics of a user: the four status counts add up to the number
    of the user's bookings; the upcoming bookings are among the confirmed
    ones; the concessions used count every booking whose flag is set,
    cancelled and refunded ones too, so that they are the number of all the
    user's bookings when every flag is set; and an id that names no user is
    answered with zeros, not with an error. *)
Theorem stats_counts {Note : Type} (note_user_id : Note -> Z)
  (now requesterId userId : Z) (notes : list Note) (s : Store) :
  activeAdmin requesterId s ->
  exists st,
    Users.stats note_user_id now requesterId userId notes s = Ok st
    /\ Users.confirmed_bookings st + Users.stats_completed_classes st
       + Users.cancelled_bookings st + Users.late_cancelled_bookings st
       = Z.of_nat (length (bookingsOf userId s))
    /\ 0 <= Users.upcoming_bookings st <= Users.confirmed_bookings st
    /\ 0 <= Users.concessions_used st <= Z.of_nat (length (bookingsOf userId s))
    /\ (allUsed s ->
        Users.concessions_used st = Z.of_nat (length (bookingsOf userId s)))
    /\ (refIntegrity s -> users s !! userId = None ->
        Users.confirmed_bookings st = 0 /\ Users.stats_completed_classes st = 0
        /\ Users.cancelled_bookings st = 0 /\ Users.late_cancelled_bookings st = 0
        /\ Users.upcoming_bookings st = 0 /\ Users.concessions_used st = 0).
Proof.
  intros (user & Hu & Ha & Hr).
  unfold Users.stats, Server.authenticateToken, Server.requireRole.
  rewrite Hu, Ha, Hr. rewrite bool_decide_eq_true_2 by done.
  eexists. split; [reflexivity|].
  cbn [Users.confirmed_bookings Users.stats_completed_classes Users.cancelled_bookings
       Users.late_cancelled_bookings Users.upcoming_bookings Users.concessions_used].
  rewrite !countOf_bookingsOf.
  pose proof (status_partition (bookingsOf userId s)) as Hp.
  pose proof (filter_and_length_le (hitStatus Booking.confirmed)
                (fun b => Time.isoDate now <? Booking.booking_date b)
                (bookingsOf userId s)) as Hup.
  pose proof (filter_length_le' Booking.used_concession (bookingsOf userId s)) as Hcu.
  split; [lia|].
  split; [split; [apply Nat2Z.is_nonneg | apply Nat2Z.inj_le; exact Hup]|].
  split; [lia|]. split.
  - intros Hall. rewrite filter_all; [done|].
    unfold bookingsOf. apply Forall_forall. intros b Hb.
    apply list_elem_of_In, filter_In in Hb as [Hb _].
    unfold allUsed in Hall. rewrite Forall_forall in Hall.
    apply Hall. by apply list_elem_of_In.
  - intros Href Hnone.
    assert (He : bookingsOf userId s = []).
    { unfold bookingsOf.
      assert (Hno : forall b, In b (bookings s) -> Booking.user_id b <> userId).
      { intros b Hb Hid. destruct (Href b) as [[u Hub] _]; [by apply list_elem_of_In|].
        rewrite Hid, Hnone in Hub. done. }
      induction (bookings s) as [|b l IH]; [done|]. simpl.
      destruct (Z.eqb_spec (Booking.user_id b) userId) as [Hid|Hid].
      - exfalso. apply (Hno b); [by left | done].
      - apply IH. intros b' Hb'. apply Hno. by right. }
    rewrite He. done.
Qed.

Lemma stats_counts_witness :
  exists st,
    Users.stats (fun n : Z => n) 0 1 2 [2; 2; 3] threeBookingsStore = Ok st
    /\ Users.concessions_used st = 3.
Proof.
  assert (Hadm : activeAdmin 1 threeBookingsStore) by (by exists admin).
  destruct (stats_counts (fun n : Z => n) 0 1 2 [2; 2; 3] threeBookingsStore Hadm)
    as (st & Hs & _ & _ & _ & Hall & _).
  exists st. split; [exact Hs|]. apply Hall.
  unfold allUsed. simpl. repeat constructor.
Defined.

(** ** Listings and pages *)

Lemma precedes_trans r1 r2 r3 :
  precedes r1 r2 = true -> precedes r2 r3 = true -> precedes r1 r3 = true.
Proof.
  unfold precedes.
  rewrite !orb_true_iff, !andb_true_iff, !Z.ltb_lt, !Z.eqb_eq, !Z.leb_le. lia.
Qed.

Lemma precedes_total r1 r2 : precedes r1 r2 = false -> precedes r2 r1 = true.
Proof.
  unfold precedes.
  rewrite orb_false_iff, andb_false_iff, orb_true_iff, andb_true_iff,
    !Z.ltb_ge, !Z.ltb_lt, !Z.eqb_eq, Z.eqb_neq, Z.leb_gt, Z.leb_le. lia.
Qed.

Section OrderBy.

Context {A : Type} (le : A -> A -> bool).
Hypothesis le_trans : forall a b c, le a b = true -> le b c = true -> le a c = true.
Hypothesis le_total : forall a b, le a b = false -> le b a = true.

Lemma insertBy_perm r l : Permutation (insertBy le r l) (r :: l).
Proof.
  induction l as [|x l IH]; simpl; [done|].
  destruct (le r x); [done|].
  rewrite IH. apply perm_swap.
Qed.

Lemma orderBy_perm l : Permutation (orderBy le l) l.
Proof.
  induction l as [|x l IH]; simpl; [done|].
  rewrite insertBy_perm. by constructor.
Qed.

Lemma insertBy_sorted r l :
  StronglySorted (fun a b => le a b = true) l ->
  StronglySorted (fun a b => le a b = true) (insertBy le r l).
Proof.
  induction 1 as [|x l Hs IH Hx]; simpl; [by repeat constructor|].
  destruct (le r x) eqn:E.
  - constructor; [by constructor|]. constructor; [done|].
    eapply Forall_impl; [exact Hx|]. intros y Hy. by eapply le_trans.
  - constructor; [done|].
    apply (Permutation_Forall (Permutation_sym (insertBy_perm r l))).
    constructor; [by apply le_total | done].
Qed.

Lemma orderBy_sorted l : StronglySorted (fun a b => le a b = true) (orderBy le l).
Proof.
  induction l as [|x l IH]; simpl; [constructor|]. by apply insertBy_sorted.
Qed.

Lemma orderBy_length l : length (orderBy le l) = length l.
Proof. apply Permutation_length, orderBy_perm. Qed.

Lemma orderBy_elem_of r l : r ∈ orderBy le l <-> r ∈ l.
Proof. by rewrite (orderBy_perm l). Qed.

End OrderBy.

Lemma orderRows_sorted l :
  StronglySorted (fun r1 r2 => precedes r1 r2 = true) (orderRows l).
Proof. apply orderBy_sorted; [apply precedes_trans | apply precedes_total]. Qed.

Lemma orderRows_length l : length (orderRows l) = length l.
Proof. apply orderBy_length. Qed.

Lemma orderRows_elem_of r l : r ∈ orderRows l <-> r ∈ l.
Proof. apply orderBy_elem_of. Qed.

Lemma joinClasses_elem_of p s b c :
  (b, c) ∈ joinClasses p s
  <-> b ∈ bookings s /\ p b = true /\ classes s !! Booking.class_id b = Some c.
Proof.
  unfold joinClasses. rewrite list_elem_of_omap. split.
  - intros (b' & Hb' & Hf). destruct (p b') eqn:Hp; [|done].
    destruct (classes s !! Booking.class_id b') as [c'|] eqn:Hc; [|done].
    simpl in Hf. injection Hf as <- <-. done.
  - intros (Hb & Hp & Hc). exists b. split; [done|]. by rewrite Hp, Hc.
Qed.

Lemma joinClasses_length p s :
  refIntegrity s ->
  length (joinClasses p s) = length (List.filter p (bookings s)).
Proof.
  unfold refIntegrity, joinClasses. intros Href.
  assert (H : forall b, b ∈ bookings s -> is_Some (classes s !! Booking.class_id b))
    by (intros b Hb; by apply Href).
  clear Href. induction (bookings s) as [|b l IH]; [done|].
  cbn [omap list_omap List.filter].
  destruct (H b) as [c Hc]; [by left|].
  rewrite Hc. destruct (p b); simpl.
  - f_equal. apply IH. intros b' Hb'. apply H. by right.
  - apply IH. intros b' Hb'. apply H. by right.
Qed.

Lemma filter_ext_elem_of {A} (p q : A -> bool) (l : list A) :
  (forall a, a ∈ l -> p a = q a) -> List.filter p l = List.filter q l.
Proof.
  intros H. apply List.filter_ext_in. intros a Ha. apply H. by apply list_elem_of_In.
Qed.

(** The administrator's listing holds the bookings that pass every filter
    given, each with its class, ordered by date and then class time, latest
    first; under the foreign keys of the table each such booking gives one
    row. *)
Theorem getAll_rows (requesterId : Z) (f : Listings.Filters) (s : Store) :
  activeAdmin requesterId s ->
  exists rows,
    Listings.getAll requesterId f s = Ok rows
    /\ StronglySorted (fun r1 r2 => precedes r1 r2 = true) rows
    /\ (forall b c,
          (b, c) ∈ rows
          <-> b ∈ bookings s /\ Listings.matches f b = true
              /\ is_Some (users s !! Booking.user_id b)
              /\ classes s !! Booking.class_id b = Some c)
    /\ (refIntegrity s ->
        length rows = length (List.filter (Listings.matches f) (bookings s))).
Proof.
  intros (user & Hu & Ha & Hr).
  unfold Listings.getAll, Server.authenticateToken, Server.requireRole.
  rewrite Hu, Ha, Hr. rewrite bool_decide_eq_true_2 by done.
  eexists. split; [reflexivity|]. split; [apply orderRows_sorted|]. split.
  - intros b c. rewrite orderRows_elem_of. unfold joinUsersClasses.
    rewrite joinClasses_elem_of, andb_true_iff, bool_decide_eq_true. tauto.
  - intros Href. rewrite orderRows_length. unfold joinUsersClasses.
    rewrite joinClasses_length by done.
    f_equal. apply filter_ext_elem_of. intros b Hb.
    destruct (Href b Hb) as [Hsome _].
    rewrite (bool_decide_eq_true_2 _ Hsome). apply andb_true_r.
Qed.

Lemma threeBookingsStore_refIntegrity : refIntegrity threeBookingsStore.
Proof.
  intros b Hb. vm_compute in Hb.
  repeat (apply elem_of_cons in Hb as [->|Hb]; [split; by eexists|]).
  by apply elem_of_nil in Hb.
Qed.

Lemma getAll_rows_witness :
  exists rows,
    Listings.getAll 1 (Listings.mkFilters (Some Booking.confirmed) None None None)
      threeBookingsStore = Ok rows
    /\ length rows = 1%nat.
Proof.
  assert (Hadm : activeAdmin 1 threeBookingsStore) by (by exists admin).
  destruct (getAll_rows 1 (Listings.mkFilters (Some Booking.confirmed) None None None)
              threeBookingsStore Hadm) as (rows & Hg & _ & _ & Hlen).
  exists rows. split; [exact Hg|].
  rewrite Hlen; [reflexivity | exact threeBookingsStore_refIntegrity].
Defined.

Lemma joinClasses_ext p q s :
  (forall b, b ∈ bookings s -> p b = q b) -> joinClasses p s = joinClasses q s.
Proof.
  unfold joinClasses. intros H.
  induction (bookings s) as [|b l IH]; [done|].
  cbn [omap list_omap]. rewrite (H b) by (by left).
  rewrite IH; [done|]. intros b' Hb'. apply H. by right.
Qed.

(** A member's own listing, the administrator's listing filtered by that
    member, and the first page of the member's history with a limit that
    covers it, are the same rows. *)
Theorem myBookings_as_admin_listing (adminId userId limit : Z) (s : Store) (row : User.t) :
  activeAdmin adminId s ->
  refIntegrity s ->
  users s !! userId = Some row ->
  User.is_active row = true ->
  User.role row = role_user ->
  Z.of_nat (length (bookingsOf userId s)) <= limit ->
  exists rows pg,
    Listings.myBookings userId s = Ok rows
    /\ Listings.getAll adminId (Listings.mkFilters None None (Some userId) None) s
       = Ok rows
    /\ Users.userBookings adminId userId limit 0 s = Ok (rows, pg)
    /\ Users.hasMore pg = false.
Proof.
  intros (user & Hu & Ha & Hr) Href Hrow Hact Hrole Hlimit.
  unfold Listings.myBookings, Listings.getAll, Users.userBookings,
    Server.authenticateToken, Server.requireRole.
  rewrite Hu, Ha, Hr, Hrow, Hact, Hrole. rewrite !bool_decide_eq_true_2 by done.
  assert (Hjoin : joinUsersClasses
                    (Listings.matches (Listings.mkFilters None None (Some userId) None)) s
                  = joinClasses (fun b => Booking.user_id b =? userId) s).
  { apply joinClasses_ext. intros b _. unfold Listings.matches. simpl.
    destruct (Z.eqb_spec (Booking.user_id b) userId) as [->|]; [|done].
    rewrite Hrow. by rewrite bool_decide_eq_true_2. }
  rewrite Hjoin.
  set (all := orderRows (joinClasses (fun b => Booking.user_id b =? userId) s)).
  assert (Hlen : length all = length (bookingsOf userId s)).
  { unfold all. rewrite orderRows_length. by apply joinClasses_length. }
  assert (Hneg : (limit <? 0) || (0 <? 0) = false).
  { rewrite orb_false_r. apply Z.ltb_ge. lia. }
  rewrite Hneg. change (Z.to_nat 0) with 0%nat. rewrite drop_0.
  rewrite take_ge by lia.
  eexists _, _. split; [reflexivity|]. split; [reflexivity|]. split; [reflexivity|].
  cbn [Users.hasMore]. apply Z.ltb_ge.
  fold (bookingsOf userId s). lia.
Qed.

Lemma myBookings_as_admin_listing_witness :
  exists rows pg,
    Listings.myBookings 2 threeBookingsStore = Ok rows
    /\ Users.userBookings 1 2 50 0 threeBookingsStore = Ok (rows, pg).
Proof.
  assert (Hadm : activeAdmin 1 threeBookingsStore) by (by exists admin).
  pose proof threeBookingsStore_refIntegrity as Href.
  destruct (myBookings_as_admin_listing 1 2 50 threeBookingsStore (member 3)
              Hadm Href eq_refl eq_refl eq_refl)
    as (rows & pg & Hm & _ & Hp & _); [vm_compute; discriminate|].
  by exists rows, pg.
Defined.

(** A page of a member's history: a negative limit or offset is answered
    with the handler's 500; otherwise the page holds the rows from the
    offset on, up to the limit, in order, the total counts the member's
    bookings, and more is announced exactly when rows remain after the
    page. *)
Theorem userBookings_page (requesterId userId limit offset : Z) (s : Store) :
  activeAdmin requesterId s ->
  refIntegrity s ->
  (limit < 0 \/ offset < 0 ->
   Users.userBookings requesterId userId limit offset s = Err InternalError)
  /\ (0 <= limit -> 0 <= offset ->
      exists rows pg,
        Users.userBookings requesterId userId limit offset s = Ok (rows, pg)
        /\ Users.total pg = Z.of_nat (length (bookingsOf userId s))
        /\ Z.of_nat (length rows) = Z.min limit (Z.max 0 (Users.total pg - offset))
        /\ (Users.hasMore pg = true <-> offset + limit < Users.total pg)
        /\ StronglySorted (fun r1 r2 => precedes r1 r2 = true) rows
        /\ (forall b c, (b, c) ∈ rows ->
              b ∈ bookings s /\ Booking.user_id b = userId
              /\ classes s !! Booking.class_id b = Some c)).
Proof.
  intros (user & Hu & Ha & Hr) Href.
  unfold Users.userBookings, Server.authenticateToken, Server.requireRole.
  rewrite Hu, Ha, Hr. rewrite !bool_decide_eq_true_2 by done.
  split.
  - intros Hneg.
    assert (H : (limit <? 0) || (offset <? 0) = true).
    { apply orb_true_iff. rewrite !Z.ltb_lt. lia. }
    by rewrite H.
  - intros Hl Ho.
    assert (H : (limit <? 0) || (offset <? 0) = false).
    { apply orb_false_iff. rewrite !Z.ltb_ge. lia. }
    rewrite H.
    set (all := orderRows (joinClasses (fun b => Booking.user_id b =? userId) s)).
    assert (Hlen : length all = length (bookingsOf userId s)).
    { unfold all. rewrite orderRows_length. by apply joinClasses_length. }
    eexists _, _. split; [reflexivity|].
    cbn [Users.total Users.hasMore]. fold (bookingsOf userId s).
    assert (Hrows : Z.of_nat (length (take (Z.to_nat limit) (drop (Z.to_nat offset) all)))
                    = Z.min limit (Z.max 0 (Z.of_nat (length (bookingsOf userId s)) - offset))).
    { rewrite length_take, length_drop, Hlen. lia. }
    split; [done|]. split; [exact Hrows|]. split; [rewrite Hrows, Z.ltb_lt; lia|].
    split.
    + assert (Hall : StronglySorted (fun r1 r2 => precedes r1 r2 = true) all)
        by apply orderRows_sorted.
      clearbody all. clear Hlen Hrows.
      assert (Hdrop : forall n l,
                StronglySorted (fun r1 r2 => precedes r1 r2 = true) l ->
                StronglySorted (fun r1 r2 => precedes r1 r2 = true) (drop n l)).
      { induction n as [|n IH]; intros l Hs; [by destruct l|].
        destruct l as [|x l]; [done|]. simpl. apply IH. by inversion Hs. }
      assert (Htake : forall n l,
                StronglySorted (fun r1 r2 => precedes r1 r2 = true) l ->
                StronglySorted (fun r1 r2 => precedes r1 r2 = true) (take n l)).
      { induction n as [|n IH]; intros l Hs; [constructor|].
        destruct l as [|x l]; [constructor|]. simpl.
        inversion Hs as [|? ? Hs' Hx]; subst. constructor; [by apply IH|].
        apply Forall_take. exact Hx. }
      by apply Htake, Hdrop.
    + intros b c Hin.
      assert (Hin' : (b, c) ∈ all).
      { by apply (subseteq_drop (Z.to_nat offset)), (subseteq_take (Z.to_nat limit)). }
      unfold all in Hin'. rewrite orderRows_elem_of, joinClasses_elem_of in Hin'.
      destruct Hin' as (Hb & Hid & Hc). apply Z.eqb_eq in Hid. done.
Qed.

Lemma userBookings_page_witness :
  Users.userBookings 1 2 (-1) 0 threeBookingsStore = Err InternalError
  /\ exists rows pg,
       Users.userBookings 1 2 2 0 threeBookingsStore = Ok (rows, pg)
       /\ Users.hasMore pg = true.
Proof.
  assert (Hadm : activeAdmin 1 threeBookingsStore) by (by exists admin).
  split.
  - apply (userBookings_page 1 2 (-1) 0 threeBookingsStore Hadm
             threeBookingsStore_refIntegrity). lia.
  - destruct (userBookings_page 1 2 2 0 threeBookingsStore Hadm
                threeBookingsStore_refIntegrity) as [_ Hpage].
    destruct Hpage as (rows & pg & Hp & Ht & _ & Hmore & _); [lia | lia |].
    exists rows, pg. split; [exact Hp|]. apply Hmore. rewrite Ht. vm_compute. done.
Defined.

(** ** Class details and deletion: [classes.js], [mockApi.classes] *)






Lemma filter_length_pos {A} (p : A -> bool) (l : list A) :
  Exists (fun a => p a = true) l -> (0 < length (List.filter p l))%nat.
Proof.
  induction 1 as [a l Ha|a l _ IH]; simpl.
  - rewrite Ha. simpl. lia.
  - destruct (p a); simpl; lia.
Qed.

Lemma filter_none {A} (p : A -> bool) (l : list A) :
  Forall (fun a => p a = false) l -> List.filter p l = [].
Proof. induction 1 as [|a l Ha _ IH]; [done|]. simpl. by rewrite Ha. Qed.

Lemma deleteClass_admin now requesterId classId s :
  activeAdmin requesterId s ->
  Classes.deleteClass now requesterId classId s
  = let activeBookings :=
      Z.of_nat (length (List.filter (Classes.activeFuture classId (Time.isoDate now))
                          (bookings s))) in
    if 0 <? activeBookings then Classes.DeleteRefused activeBookings else
    match classes s !! classId with
    | None => Classes.DeleteFailed NotFound
    | Some _ =>
      Classes.DeleteDone
        {| users := users s;
           classes := delete classId (classes s);
           bookings := List.filter (fun b => negb (Booking.class_id b =? classId))
                         (bookings s) |}
    end.
Proof.
  intros (user & Hu & Ha & Hr).
  unfold Classes.deleteClass, Server.authenticateToken, Server.requireRole.
  rewrite Hu, Ha, Hr. by rewrite bool_decide_eq_true_2.
Qed.

Lemma cascade_elem_of classId (bs : list Booking.t) b :
  b ∈ List.filter (fun b => negb (Booking.class_id b =? classId)) bs
  <-> b ∈ bs /\ Booking.class_id b <> classId.
Proof.
  rewrite !list_elem_of_In, filter_In, negb_true_iff, Z.eqb_neq. done.
Qed.

(** Deleting a class. While a confirmed booking of the class lies after
    the current date the request is refused, with the number of such
    bookings. Otherwise the class row goes and with it every booking that
    refers to it, whatever its status and date; no balance changes, so the
    concession of a booking deleted this way is not returned. The foreign
    keys of the bookings table hold afterwards as before. *)
Theorem deleteClass_cascade (now requesterId classId : Z) (s : Store) (c : GymClass.t) :
  activeAdmin requesterId s ->
  classes s !! classId = Some c ->
  (Exists (fun b => Classes.activeFuture classId (Time.isoDate now) b = true) (bookings s) ->
   0 < Z.of_nat (length (List.filter (Classes.activeFuture classId (Time.isoDate now))
                           (bookings s)))
   /\ Classes.deleteClass now requesterId classId s
      = Classes.DeleteRefused
          (Z.of_nat (length (List.filter (Classes.activeFuture classId (Time.isoDate now))
                               (bookings s)))))
  /\ (Forall (fun b => Classes.activeFuture classId (Time.isoDate now) b = false)
        (bookings s) ->
      exists s',
        Classes.deleteClass now requesterId classId s = Classes.DeleteDone s'
        /\ users s' = users s
        /\ classes s' !! classId = None
        /\ (forall k, k <> classId -> classes s' !! k = classes s !! k)
        /\ (forall b, b ∈ bookings s' <-> b ∈ bookings s /\ Booking.class_id b <> classId)
        /\ (forall userId, balance userId s' = balance userId s)
        /\ (refIntegrity s -> refIntegrity s')).
Proof.
  intros Hadm Hc. rewrite (deleteClass_admin _ _ _ _ Hadm). cbv zeta. split.
  - intros Hex%filter_length_pos. split; [lia|].
    destruct (Z.ltb_spec 0 (Z.of_nat (length (List.filter
      (Classes.activeFuture classId (Time.isoDate now)) (bookings s))))); [done|lia].
  - intros Hall%filter_none. rewrite Hall, Hc. simpl.
    eexists. split; [reflexivity|]. simpl.
    split; [done|]. split; [apply lookup_delete_eq|].
    split; [intros k Hk; by apply lookup_delete_ne|].
    split; [apply cascade_elem_of|]. split; [done|].
    intros Href b [Hb Hne]%cascade_elem_of. simpl.
    destruct (Href b Hb) as [Hus Hcs]. split; [done|].
    by rewrite lookup_delete_ne.
Qed.

Lemma deleteClass_cascade_witness :
  Classes.deleteClass 0 1 1 bookedStore = Classes.DeleteRefused 1
  /\ exists s',
       Classes.deleteClass (10 * Time.msPerDay) 1 1 bookedStore = Classes.DeleteDone s'
       /\ bookings s' = []
       /\ balance 2 s' = Some 4.
Proof.
  assert (Hadm : activeAdmin 1 bookedStore) by (by exists admin).
  split.
  - apply (deleteClass_cascade 0 1 1 bookedStore (openClass 20) Hadm eq_refl).
    apply Exists_cons_hd. reflexivity.
  - destruct (deleteClass_cascade (10 * Time.msPerDay) 1 1 bookedStore (openClass 20)
                Hadm eq_refl) as [_ Hdone].
    destruct Hdone as (s' & Hd & _ & _ & _ & Hbs & Hbal & _).
    { repeat constructor. }
    exists s'. split; [exact Hd|]. split; [|by rewrite Hbal].
    destruct (bookings s') as [|b l] eqn:E; [done|].
    destruct (proj1 (Hbs b)) as [Hb Hne]; [by left|].
    unfold bookedStore in Hb. cbn [bookings] in Hb.
    apply elem_of_cons in Hb as [->|Hb%elem_of_nil]; done.
Defined.

Lemma mock_activeFuture_eq id now b :
  MockClasses.activeFuture id now b = Classes.activeFuture id (Time.isoDate now) b.
Proof.
  unfold MockClasses.activeFuture, Classes.activeFuture. f_equal.
  unfold Time.midnight, Time.isoDate, Time.msPerDay.
  change (1000 * 60 * 60 * 24) with 86400000.
  destruct (Z.ltb_spec now (Booking.booking_date b * 86400000));
    destruct (Z.ltb_spec (now / 86400000) (Booking.booking_date b)); try done;
    exfalso; Z.to_euclidean_division_equations; lia.
Qed.

Lemma mock_guard_count id now (l : list Booking.t) :
  existsb (MockClasses.activeFuture id now) l
  = (0 <? Z.of_nat (length (List.filter (Classes.activeFuture id (Time.isoDate now)) l))).
Proof.
  induction l as [|a l IH]; [done|]. simpl. rewrite mock_activeFuture_eq.
  destruct (Classes.activeFuture id (Time.isoDate now) a); simpl; [|done].
  symmetry. apply Z.ltb_lt. lia.
Qed.

(** The mock refuses the deletion of a class in the cases the server does,
    and deletes the same class row; but it leaves the bookings of the class
    in place, where the server deletes them, and none of them can be
    cancelled afterwards. *)
Theorem mock_delete_keeps_bookings (now token classId : Z) (s : Store) (c : GymClass.t) :
  activeAdmin token s ->
  classes s !! classId = Some c ->
  (MockClasses.delete now token classId s = MockClasses.DeleteRefused
   <-> exists n, Classes.deleteClass now token classId s = Classes.DeleteRefused n)
  /\ (forall s',
        MockClasses.delete now token classId s = MockClasses.DeleteDone s' ->
        exists t,
          Classes.deleteClass now token classId s = Classes.DeleteDone t
          /\ users s' = users t /\ classes s' = classes t
          /\ bookings s' = bookings s
          /\ forall now' token' id r,
               (forall b, b ∈ bookings s -> Booking.id b = id ->
                          Booking.class_id b = classId) ->
               Mock.cancel now' token' id s' <> Ok r).
Proof.
  intros Hadm Hc. rewrite (deleteClass_admin _ _ _ _ Hadm). cbv zeta.
  destruct Hadm as (user & Hu & Ha & Hr).
  unfold MockClasses.delete, Mock.getUserByToken.
  rewrite Hu, Hr, Hc. rewrite bool_decide_eq_true_2 by done. cbn [negb].
  rewrite mock_guard_count.
  destruct (0 <? _) eqn:E.
  - split; [split; [by eexists | done]|]. intros s' [=].
  - split; [split; [done | by intros [n [=]]]|].
    intros s' [= <-]. eexists. split; [reflexivity|]. cbn [users classes bookings].
    split; [done|]. split; [done|]. split; [done|].
    intros now' token' id r Hid
      (u & i & booking & gymClass & _ & Hfind & Hb & Hcls & _)%mock_cancel_Ok_iff.
    cbn [bookings classes] in *.
    destruct (findIndex_Some _ _ _ Hfind) as (x & Hx & Hp & _).
    assert (x = booking) as -> by congruence.
    apply andb_true_iff in Hp as [Hp%Z.eqb_eq _].
    rewrite (Hid booking) in Hcls; [|by eapply list_elem_of_lookup_2|done].
    by rewrite lookup_delete_eq in Hcls.
Qed.

Lemma mock_delete_keeps_bookings_witness :
  exists s',
    MockClasses.delete (10 * Time.msPerDay) 1 1 bookedStore = MockClasses.DeleteDone s'
    /\ bookings s' = bookings bookedStore
    /\ forall r, Mock.cancel (10 * Time.msPerDay) 2 100 s' <> Ok r.
Proof.
  assert (Hadm : activeAdmin 1 bookedStore) by (by exists admin).
  destruct (mock_delete_keeps_bookings (10 * Time.msPerDay) 1 1 bookedStore (openClass 20)
              Hadm eq_refl) as [_ Hdone].
  eexists. split; [reflexivity|].
  destruct (Hdone _ eq_refl) as (t & _ & _ & _ & Hbs & Hcancel).
  split; [exact Hbs|]. intros r. apply Hcancel.
  intros b Hb _. unfold bookedStore in Hb. cbn [bookings] in Hb.
  apply elem_of_cons in Hb as [->|Hb%elem_of_nil]; done.
Defined.

(** ** The tables under every request *)

Lemma alter_is_Some {A} (f : A -> A) (k j : Z) (m : gmap Z A) :
  is_Some (alter f k m !! j) <-> is_Some (m !! j).
Proof.
  destruct (decide (j = k)) as [->|Hne].
  - rewrite lookup_alter_eq. apply fmap_is_Some.
  - by rewrite lookup_alter_ne.
Qed.

Lemma insert_is_Some {A} (k j : Z) (v w : A) (m : gmap Z A) :
  m !! k = Some w ->
  is_Some (<[k := v]> m !! j) <-> is_Some (m !! j).
Proof.
  intros Hk. destruct (decide (j = k)) as [->|Hne].
  - rewrite lookup_insert_eq, Hk. split; by eexists.
  - by rewrite lookup_insert_ne.
Qed.

Lemma stepShape_refl s : stepShape s s.
Proof.
  apply (ShapeUpdate s s (fun b => b)); [done..|]. by rewrite map_id.
Qed.

Lemma serverRun_step_shape s op : stepShape s (ServerRun.step s op).
Proof.
  destruct op as [now userId classId bookingDate newId
    | now requesterId bookingId | requesterId classId bookingDate
    | requesterId classId bookingDate]; simpl.
  - destruct (Server.create _ _ _ _ _ s) as [r|] eqn:Hc; [|apply stepShape_refl].
    apply create_Ok_iff in Hc
      as (_ & user & classData & [Hu _ Hcl _ _ _ _ Hcon] & ->).
    apply (ShapeInsert _ _ (Server.newBooking newId userId classId bookingDate now));
      simpl;
      [done | intros k; apply alter_is_Some | done | done
      | by rewrite Hu | by rewrite Hcl | done].
  - destruct (Server.cancel _ _ _ s) as [r|] eqn:Hc; [|apply stepShape_refl].
    apply cancel_Ok_inv in Hc
      as (user & booking & class & rest & _ & _ & _ & _ & _ & ->).
    unfold cancelledBy. cbv zeta. cbn [Server.cancelled_store].
    eapply ShapeUpdate; cbn [users classes bookings];
      [|reflexivity| |unfold Server.cancelRows; reflexivity].
    + intros b. cbv beta. by destruct (Booking.id b =? bookingId).
    + intros k. destruct (_ && _); [apply alter_is_Some|done].
  - unfold Server.completeClass, Server.bulkTransition.
    destruct (Server.authenticateToken requesterId s); [|apply stepShape_refl].
    destruct (Server.requireRole role_admin a); [|apply stepShape_refl].
    destruct (classId <? 1); [apply stepShape_refl|]. simpl.
    eapply ShapeUpdate; simpl; [|done|done|reflexivity].
    intros b. cbv beta. by case_match.
  - unfold Server.undoCompleteClass, Server.bulkTransition.
    destruct (Server.authenticateToken requesterId s); [|apply stepShape_refl].
    destruct (Server.requireRole role_admin a); [|apply stepShape_refl].
    destruct (classId <? 1); [apply stepShape_refl|]. simpl.
    eapply ShapeUpdate; simpl; [|done|done|reflexivity].
    intros b. cbv beta. by case_match.
Qed.

Lemma serverAll_step_shape s r : stepShape s (ServerAll.step s r).
Proof.
  destruct r as [op | requesterId userId concessions | requesterId userId
    | now requesterId classId]; simpl.
  - apply serverRun_step_shape.
  - unfold Server.updateConcessions.
    destruct (Server.authenticateToken requesterId s); [|apply stepShape_refl].
    destruct (Server.requireRole role_admin a); [|apply stepShape_refl].
    destruct (users s !! userId) as [row|] eqn:Hrow; [|apply stepShape_refl]. simpl.
    apply (ShapeUpdate _ _ (fun b => b)); simpl; [done|done| |by rewrite map_id].
    intros k. by eapply insert_is_Some.
  - unfold Users.toggleActive.
    destruct (Server.authenticateToken requesterId s); [|apply stepShape_refl].
    destruct (Server.requireRole role_admin a); [|apply stepShape_refl].
    destruct (users s !! userId) as [row|] eqn:Hrow; [|apply stepShape_refl]. simpl.
    apply (ShapeUpdate _ _ (fun b => b)); simpl; [done|done| |by rewrite map_id].
    intros k. by eapply insert_is_Some.
  - unfold Classes.deleteClass.
    destruct (Server.authenticateToken requesterId s); [|apply stepShape_refl].
    destruct (Server.requireRole role_admin a); [|apply stepShape_refl].
    cbv zeta. destruct (0 <? _); [apply stepShape_refl|].
    destruct (classes s !! classId); [|apply stepShape_refl].
    by apply (ShapeDelete _ _ classId).
Qed.

Lemma frozen_fields b b' :
  frozen b' = frozen b ->
  Booking.id b' = Booking.id b /\ Booking.user_id b' = Booking.user_id b
  /\ Booking.class_id b' = Booking.class_id b
  /\ Booking.booking_date b' = Booking.booking_date b
  /\ Booking.used_concession b' = Booking.used_concession b.
Proof. unfold frozen. intros [= -> -> -> -> -> _]. done. Qed.

Lemma map_through {B} (g : Booking.t -> B) (f : Booking.t -> Booking.t) bs :
  (forall b, g (f b) = g b) -> map g (map f bs) = map g bs.
Proof.
  intros Hf. induction bs as [|b bs IH]; [done|]. simpl. by rewrite Hf, IH.
Qed.

Lemma elem_of_map {A B} (g : A -> B) (l : list A) y :
  y ∈ map g l <-> exists x, g x = y /\ x ∈ l.
Proof.
  rewrite list_elem_of_In, in_map_iff.
  split; intros (x & Hx & Hin); exists x; by rewrite list_elem_of_In in *.
Qed.

Lemma NoDup_map_filter {A B} (g : A -> B) (p : A -> bool) (l : list A) :
  NoDup (map g l) -> NoDup (map g (List.filter p l)).
Proof.
  induction l as [|a l IH]; [done|]. simpl.
  intros [Hnin Hnd]%NoDup_cons. destruct (p a); simpl; [|by apply IH].
  apply NoDup_cons. split; [|by apply IH].
  intros (x & Hx & Hin)%elem_of_map. apply Hnin, elem_of_map.
  exists x. split; [done|].
  apply list_elem_of_In. apply list_elem_of_In, filter_In in Hin. tauto.
Qed.

Lemma violatesConstraint_false nb bs :
  Server.violatesConstraint nb bs = false ->
  (Booking.id nb ∉ map Booking.id bs) /\ (triple nb ∉ map triple bs).
Proof.
  unfold Server.violatesConstraint. intros Hex.
  assert (H : forall b, b ∈ bs ->
            Booking.id b <> Booking.id nb /\ triple b <> triple nb).
  { intros b Hb.
    assert (Hf : (Booking.id b =? Booking.id nb)
                 || forUserClassDate (Booking.user_id nb) (Booking.class_id nb)
                      (Booking.booking_date nb) b = false).
    { destruct (_ || _) eqn:E; [|done].
      assert (Ht : existsb (fun b => (Booking.id b =? Booking.id nb)
                      || forUserClassDate (Booking.user_id nb) (Booking.class_id nb)
                           (Booking.booking_date nb) b) bs = true).
      { apply existsb_exists. exists b. split; [by apply list_elem_of_In|done]. }
      congruence. }
    apply orb_false_iff in Hf as [Hid Htr]. apply Z.eqb_neq in Hid.
    split; [done|]. unfold triple. intros [= Hu Hc Hd].
    unfold forUserClassDate, forClassDate in Htr.
    rewrite Hu, Hc, Hd, !Z.eqb_refl in Htr. done. }
  split; intros (b & Heq & Hb)%elem_of_map; destruct (H b Hb); done.
Qed.

Lemma shape_refIntegrity s s' : stepShape s s' -> refIntegrity s -> refIntegrity s'.
Proof.
  intros [f Hf Hc Hu Hb | nb Hc Hu Hb _ Hus Hcs _ | classId Hu Hc Hb] Href b; rewrite Hb.
  - intros (x & <- & Hx)%elem_of_map.
    destruct (frozen_fields _ _ (Hf x)) as (_ & -> & -> & _).
    rewrite Hc, Hu. by apply Href.
  - rewrite Hc. intros [Hin|Heq%list_elem_of_singleton]%elem_of_app.
    + rewrite Hu. by apply Href.
    + subst b. by rewrite Hu.
  - intros [Hin Hne]%cascade_elem_of. rewrite Hu, Hc.
    destruct (Href b Hin). split; [done|]. by rewrite lookup_delete_ne.
Qed.

Lemma shape_constraintsOk s s' : stepShape s s' -> constraintsOk s -> constraintsOk s'.
Proof.
  unfold constraintsOk.
  intros [f Hf Hc Hu Hb | nb Hc Hu Hb _ _ _ Hcon | classId Hu Hc Hb] [Hid Htr];
    rewrite Hb.
  - rewrite !map_through; [done|..]; intros b;
      destruct (frozen_fields _ _ (Hf b)) as (? & ? & ? & ? & _);
      unfold triple; congruence.
  - apply violatesConstraint_false in Hcon as [Hn1 Hn2].
    rewrite !map_app. simpl. split; apply NoDup_app.
    + split; [done|]. split; [|apply NoDup_singleton].
      intros x Hx Heq%list_elem_of_singleton. by subst x.
    + split; [done|]. split; [|apply NoDup_singleton].
      intros x Hx Heq%list_elem_of_singleton. by subst x.
  - split; by apply NoDup_map_filter.
Qed.

Lemma shape_allUsed s s' : stepShape s s' -> allUsed s -> allUsed s'.
Proof.
  unfold allUsed.
  intros [f Hf Hc Hu Hb | nb Hc Hu Hb Hused _ _ _ | classId Hu Hc Hb] Hall;
    rewrite Hb; rewrite Forall_forall in *.
  - intros b (x & <- & Hx)%elem_of_map.
    destruct (frozen_fields _ _ (Hf x)) as (_ & _ & _ & _ & ->). by apply Hall.
  - intros b [Hin|Heq%list_elem_of_singleton]%elem_of_app; [by apply Hall|by subst b].
  - intros b [Hin _]%cascade_elem_of. by apply Hall.
Qed.

Lemma serverAll_run_shape (P : Store -> Prop) :
  (forall s s', stepShape s s' -> P s -> P s') ->
  forall rs s, P s -> P (ServerAll.run rs s).
Proof.
  intros Hstep rs. induction rs as [|r rs IH]; intros s Hs; [done|].
  simpl. apply IH. eapply Hstep; [apply serverAll_step_shape|done].
Qed.

(** The constraints of the schema hold after every sequence of requests
    that write a table (bookings, cancellations, the two bulk transitions,
    balance updates, activations and class deletions): every booking
    refers to a user and a class, booking ids are distinct, no two bookings
    share user, class and date, and every booking has its flag set if
    those the sequence started from had. *)
Theorem server_tables_consistent (rs : list Request) (s : Store) :
  refIntegrity s ->
  constraintsOk s ->
  allUsed s ->
  refIntegrity (ServerAll.run rs s)
  /\ constraintsOk (ServerAll.run rs s)
  /\ allUsed (ServerAll.run rs s).
Proof.
  intros Href Hcon Hall. split; [|split].
  - by apply (serverAll_run_shape refIntegrity shape_refIntegrity).
  - by apply (serverAll_run_shape constraintsOk shape_constraintsOk).
  - by apply (serverAll_run_shape allUsed shape_allUsed).
Qed.

Lemma bookedStore_consistent :
  refIntegrity bookedStore /\ constraintsOk bookedStore /\ allUsed bookedStore.
Proof.
  split; [|split].
  - intros b Hb. unfold bookedStore in Hb. cbn [bookings] in Hb.
    apply elem_of_cons in Hb as [->|Hb%elem_of_nil]; [|done]. split; by eexists.
  - split; apply NoDup_singleton.
  - repeat constructor.
Qed.

Lemma server_tables_consistent_witness :
  constraintsOk
    (ServerAll.run [ReqLifecycle (OpCreate 0 3 1 10 101);
                    ReqLifecycle (OpCancel 0 2 100);
                    ReqDeleteClass (10 * Time.msPerDay) 1 1] bookedStore).
Proof.
  destruct bookedStore_consistent as (Href & Hcon & Hall).
  apply (server_tables_consistent _ bookedStore Href Hcon Hall).
Defined.

(** ** One booking per member, class and date *)

Lemma shape_triple_kept userId classId date s s' :
  stepShape s s' ->
  (exists b, b ∈ bookings s /\ triple b = (userId, classId, date))
  \/ classes s !! classId = None ->
  (exists b, b ∈ bookings s' /\ triple b = (userId, classId, date))
  \/ classes s' !! classId = None.
Proof.
  intros [f Hf Hc Hu Hb | nb Hc Hu Hb _ _ _ _ | k Hu Hc Hb] [(b & Hin & Ht)|Hnone].
  - left. exists (f b). split.
    + rewrite Hb. apply elem_of_map. by exists b.
    + destruct (frozen_fields _ _ (Hf b)) as (_ & ? & ? & ? & _).
      unfold triple in *. congruence.
  - right. by rewrite Hc.
  - left. exists b. split; [|done]. rewrite Hb. apply elem_of_app. by left.
  - right. by rewrite Hc.
  - destruct (decide (k = classId)) as [->|Hne].
    + right. rewrite Hc. apply lookup_delete_eq.
    + left. exists b. split; [|done]. rewrite Hb. apply cascade_elem_of.
      split; [done|]. unfold triple in Ht. injection Ht as _ -> _. done.
  - right. rewrite Hc. destruct (decide (k = classId)) as [->|Hne].
    + apply lookup_delete_eq.
    + by rewrite lookup_delete_ne.
Qed.

(** A member books a class on a date once and for all: after any sequence
    of requests, a booking of theirs for that class and date, whatever has
    become of it, keeps a second create request from being accepted. When
    the first booking is no longer confirmed and the request passes every
    check of the handler, the insert is refused by the table and the
    answer is the handler's 500; the mock accepts such a request. *)
Theorem no_second_booking (rs : list Request) (s : Store) (b : Booking.t) :
  b ∈ bookings s ->
  (forall now newId r,
     Server.create now (Booking.user_id b) (Booking.class_id b) (Booking.booking_date b)
       newId (ServerAll.run rs s) <> Ok r)
  /\ (forall now newId user c,
        reachesHandler (Booking.user_id b) (Booking.class_id b) (ServerAll.run rs s) ->
        passesChecks now (Booking.user_id b) (Booking.class_id b) (Booking.booking_date b)
          (ServerAll.run rs s) user c ->
        Server.create now (Booking.user_id b) (Booking.class_id b) (Booking.booking_date b)
          newId (ServerAll.run rs s) = Err InternalError
        /\ (published_or_due c (Time.isoDate now) ->
            exists r, Mock.create now (Booking.user_id b) (Booking.class_id b)
                        (Booking.booking_date b) (ServerAll.run rs s) = Ok r)).
Proof.
  intros Hb.
  assert (Hkept : (exists b', b' ∈ bookings (ServerAll.run rs s) /\ triple b' = triple b)
                  \/ classes (ServerAll.run rs s) !! Booking.class_id b = None).
  { apply (serverAll_run_shape
             (fun s => (exists b', b' ∈ bookings s /\ triple b' = triple b)
                       \/ classes s !! Booking.class_id b = None)).
    - intros s1 s2 Hshape. by apply shape_triple_kept.
    - left. by exists b. }
  set (s' := ServerAll.run rs s) in *. clearbody s'.
  assert (Hrow : forall c, classes s' !! Booking.class_id b = Some c ->
            forall now newId,
              Server.violatesConstraint
                (Server.newBooking newId (Booking.user_id b) (Booking.class_id b)
                   (Booking.booking_date b) now) (bookings s') = true).
  { intros c Hc now newId. destruct Hkept as [(b' & Hin & Ht)|Hnone]; [|congruence].
    unfold Server.violatesConstraint. apply existsb_exists.
    exists b'. split; [by apply list_elem_of_In|].
    apply orb_true_iff. right. simpl.
    unfold triple in Ht. injection Ht as H1 H2 H3.
    unfold forUserClassDate, forClassDate. by rewrite H1, H2, H3, !Z.eqb_refl. }
  split.
  - intros now newId r (_ & user & c & [_ _ Hc _ _ _ _ Hcon] & _)%create_Ok_iff.
    rewrite (Hrow c Hc) in Hcon. done.
  - intros now newId user c Hreach [Hu Hw Hc Hav Hcr Hdup Hcap]. split.
    + destruct (create_reachesHandler now _ _ (Booking.booking_date b) newId _ Hreach)
        as (user' & Hu' & ->).
      assert (user' = user) as -> by congruence.
      rewrite Hw, Hc, Hav, Hdup. simpl.
      destruct (Z.leb_spec (User.concessions user) (-5)); [lia|].
      destruct (Z.leb_spec (GymClass.max_capacity c)
                  (Z.of_nat (countConfirmed (Booking.class_id b) (Booking.booking_date b)
                               (bookings s')))); [lia|].
      by rewrite (Hrow c Hc).
    + intros Hpub. eexists. apply mock_create_Ok_iff.
      exists user, c. split; [done|]. split; [done|]. split; [done|].
      split; [by apply mock_available_iff|]. split; [done|reflexivity].
Qed.

Lemma no_second_booking_witness :
  Server.create 0 2 1 10 101 (ServerAll.run [ReqLifecycle (OpCancel 0 2 100)] bookedStore)
  = Err InternalError.
Proof.
  assert (Hb : Server.newBooking 100 2 1 10 0 ∈ bookings bookedStore) by (by left).
  destruct (no_second_booking [ReqLifecycle (OpCancel 0 2 100)] bookedStore _ Hb)
    as [_ H500].
  apply (H500 0 101 (member 5) (openClass 20)).
  - exists (member 5). by vm_compute.
  - constructor; by vm_compute.
Defined.

(** ** The ledger of concessions *)











(** ** The availability test of the booking context *)


(** ** The seats the booking page shows *)




